(** * itmo_choice_bot: service adapters of [shared_libs]

    A shallow embedding of the vector-store adapter
    ([shared_libs/qdrant/base_collection.py]), of the two chat-completion
    adapters ([shared_libs/llm/local_opemnai_client.py],
    [shared_libs/llm/openai_client.py]) and of the document-store adapter
    ([shared_libs/arango/base_collection.py]).

    The adapters are Python methods that call a remote service, catch what it
    raises and raise again.  They are embedded in a state-and-exception monad:
    the state is the log of the calls that reached the service (together with
    what the service remembers), an exception is a value [Raise e].  The
    services themselves are not part of the repository; they are variables of
    the sections below, so every theorem holds for every behaviour of the
    service.  The same goes for the client libraries' models and for the two
    builtins that read a text through the interpreter's Unicode tables. *)

From Stdlib Require Import ZArith List String Ascii Bool Lia.
From Stdlib.Strings Require Import Byte.
From Stdlib Require Import PrimFloat FloatOps SpecFloat Sorted.
From Stdlib Require DecimalString.
Import ListNotations.

Set Implicit Arguments.
Set Warnings "-register-all,-inexact-float".

(* ================================================================== *)
(** ** Python values, exceptions and calls *)
(* ================================================================== *)

Module Py.

(** Values that cross the adapters' interfaces: JSON-like data, plus an
    opaque instance of a class ([PyObject "LocalOpenaiClient"] is the receiver
    of a method).  A [dict] is an association list: Python dicts keep
    insertion order, and the order shows in what is sent. *)
Inductive pyval : Type :=
| PyNone
| PyBool (b : bool)
| PyInt (z : Z)
| PyFloat (f : float)
| PyStr (s : string)
| PyList (l : list pyval)
| PyDict (d : list (string * pyval))
| PyObject (cls : string).

Definition kwargs := list (string * pyval).

Definition type_name (v : pyval) : string :=
  match v with
  | PyNone => "NoneType"
  | PyBool _ => "bool"
  | PyInt _ => "int"
  | PyFloat _ => "float"
  | PyStr _ => "str"
  | PyList _ => "list"
  | PyDict _ => "dict"
  | PyObject cls => cls
  end.

(** The part of the exception hierarchy the adapters meet.  Every class here
    derives from [Exception]; pydantic's [ValidationError], its
    [PydanticSerializationError] and [json.JSONDecodeError] derive from
    [ValueError]. *)
Inductive exn_class : Set :=
| Exception
| TypeError
| ValueError
| ArithmeticError
| OverflowError
| RuntimeError
| LookupError
| KeyError
| IndexError
| AttributeError
| OSError
| ValidationError
| JSONDecodeError
| PydanticSerializationError
| APIError.

Definition exn_class_eqb (c d : exn_class) : bool :=
  match c, d with
  | Exception, Exception | TypeError, TypeError | ValueError, ValueError
  | ArithmeticError, ArithmeticError | OverflowError, OverflowError
  | RuntimeError, RuntimeError | LookupError, LookupError
  | KeyError, KeyError | IndexError, IndexError
  | AttributeError, AttributeError | OSError, OSError
  | ValidationError, ValidationError | JSONDecodeError, JSONDecodeError
  | PydanticSerializationError, PydanticSerializationError
  | APIError, APIError => true
  | _, _ => false
  end.

Definition base (c : exn_class) : option exn_class :=
  match c with
  | Exception => None
  | OverflowError => Some ArithmeticError
  | KeyError | IndexError => Some LookupError
  | ValidationError | JSONDecodeError | PydanticSerializationError =>
      Some ValueError
  | _ => Some Exception
  end.

Fixpoint issubclass_upto (n : nat) (c d : exn_class) : bool :=
  exn_class_eqb c d ||
  match n, base c with
  | S n', Some p => issubclass_upto n' p d
  | _, _ => false
  end.

(** [issubclass c d]: the hierarchy above is three levels deep. *)
Definition issubclass (c d : exn_class) : bool := issubclass_upto 3 c d.

(** An exception instance: its class and [str(e)]. *)
Record exn : Type := mkExn { exn_cls : exn_class; exn_str : string }.

Definition isinstance (e : exn) (c : exn_class) : bool :=
  issubclass (exn_cls e) c.

Inductive result (A : Type) : Type :=
| Ok (a : A)
| Raise (e : exn).
Arguments Ok {A} a.
Arguments Raise {A} e.

(** *** The monad: a world [W] threaded through, exceptions as results *)

Definition M (W A : Type) : Type := W -> result A * W.

Definition ret {W A} (a : A) : M W A := fun w => (Ok a, w).

Definition raise {W A} (e : exn) : M W A := fun w => (Raise e, w).

Definition bind {W A B} (m : M W A) (k : A -> M W B) : M W B :=
  fun w =>
    match m w with
    | (Ok a, w') => k a w'
    | (Raise e, w') => (Raise e, w')
    end.

Definition lift {W A} (r : result A) : M W A := fun w => (r, w).

(** One [except (C1, C2, ...) as e: handler] clause. *)
Definition clause (W A : Type) : Type := (list exn_class * (exn -> M W A))%type.

Fixpoint find_clause {W A} (e : exn) (hs : list (clause W A))
  : option (exn -> M W A) :=
  match hs with
  | [] => None
  | (cs, h) :: hs' =>
      if existsb (isinstance e) cs then Some h else find_clause e hs'
  end.

(** [try: body  except ...]: the first clause that matches the class of the
    exception handles it; an exception no clause matches goes on unchanged.
    What the body did to the world before it raised stays done. *)
Definition try_except {W A} (body : M W A) (hs : list (clause W A)) : M W A :=
  fun w =>
    match body w with
    | (Ok a, w') => (Ok a, w')
    | (Raise e, w') =>
        match find_clause e hs with
        | Some h => h e w'
        | None => (Raise e, w')
        end
    end.

(** [for x in xs: body x], collecting what each round yields. *)
Fixpoint for_each {W A B} (xs : list A) (body : A -> M W B) : M W (list B) :=
  match xs with
  | [] => ret []
  | x :: xs' =>
      bind (body x) (fun y =>
      bind (for_each xs' body) (fun ys => ret (y :: ys)))
  end.

(** *** Calls *)

Definition nat_to_string (n : nat) : string :=
  DecimalString.NilEmpty.string_of_uint (Nat.to_uint n).

(** A function defined by [def name(p1, ..., pn)] with positional parameters
    only: calling it with another number of arguments raises [TypeError]
    before the body runs. *)
Record pyfunction (W A : Type) : Type := Def {
  qualname : string;
  params : list string;
  body : list pyval -> M W A
}.

Definition arity_error (name : string) (expected given : nat) : exn :=
  mkExn TypeError
    (name ++ "() takes " ++ nat_to_string expected
          ++ " positional argument"
          ++ (if Nat.eqb expected 1 then "" else "s")
          ++ " but " ++ nat_to_string given
          ++ (if Nat.eqb given 1 then " was given" else " were given"))%string.

Definition call {W A} (f : pyfunction W A) (args : list pyval) : M W A :=
  if Nat.eqb (List.length args) (List.length (params f))
  then body f args
  else raise (arity_error (qualname f) (List.length (params f))
                (List.length args)).

(** [obj.f(args)] where [f] is a plain function of the class of [obj] (no
    [staticmethod], no [classmethod]): the bound method passes [obj] as the
    first positional argument. *)
Definition call_method {W A} (obj : pyval) (f : pyfunction W A)
  (args : list pyval) : M W A :=
  call f (obj :: args).

(** [f(k1=v1, ..., **extra)]: a key of [extra] that repeats an explicit
    keyword raises [TypeError] and [f] is not entered. *)
Fixpoint lookup (k : string) (d : kwargs) : option pyval :=
  match d with
  | [] => None
  | (k', v) :: d' => if String.eqb k k' then Some v else lookup k d'
  end.

Fixpoint repeated_keyword (explicit extra : kwargs) : option string :=
  match extra with
  | [] => None
  | (k, _) :: extra' =>
      match lookup k explicit with
      | Some _ => Some k
      | None => repeated_keyword explicit extra'
      end
  end.

Definition call_kw {W A} (fname : string) (f : kwargs -> M W A)
  (explicit extra : kwargs) : M W A :=
  match repeated_keyword explicit extra with
  | Some k =>
      raise (mkExn TypeError
               (fname ++ "() got multiple values for keyword argument '"
                      ++ k ++ "'")%string)
  | None => f (explicit ++ extra)%list
  end.

(** *** Builtins *)

(** Truth value of a [str]: non-empty. *)
Definition str_truthy (s : string) : bool :=
  match s with
  | EmptyString => false
  | String _ _ => true
  end.

(** [d[k]] *)
Definition getitem (d : kwargs) (k : string) : result pyval :=
  match lookup k d with
  | Some v => Ok v
  | None => Raise (mkExn KeyError ("'" ++ k ++ "'")%string)
  end.

(** [d.get(k, default)] *)
Definition get (d : kwargs) (k : string) (default : pyval) : pyval :=
  match lookup k d with
  | Some v => v
  | None => default
  end.

(** [xs[0]] on a list *)
Definition first {A} (xs : list A) : result A :=
  match xs with
  | x :: _ => Ok x
  | [] => Raise (mkExn IndexError "list index out of range")
  end.

(** [int] of a float: truncation towards zero; infinities and NaN raise. *)
Definition float_trunc (f : float) : result Z :=
  match Prim2SF f with
  | S754_zero _ => Ok 0%Z
  | S754_infinity _ =>
      Raise (mkExn OverflowError "cannot convert float infinity to integer")
  | S754_nan =>
      Raise (mkExn ValueError "cannot convert float NaN to integer")
  | S754_finite s m e =>
      let a := if (0 <=? e)%Z then Z.shiftl (Zpos m) e
               else Z.shiftr (Zpos m) (- e) in
      Ok (if s then (- a)%Z else a)
  end.

(** Two builtins read a [str] through the interpreter's Unicode tables and
    settings: [int(s)] (which characters are decimal digits and white space,
    how long a literal may be, how the refused text is quoted in the
    message) and [s.strip()] (which characters are white space).  The
    adapters only pass texts through them, so both are left to the
    interpreter: everything below holds whatever they answer. *)
Class Builtins : Type := {
  int_of_text : string -> result Z;
  strip : string -> string
}.

(** [int(v)] *)
Definition int {builtins : Builtins} (v : pyval) : result Z :=
  match v with
  | PyInt z => Ok z
  | PyBool b => Ok (if b then 1%Z else 0%Z)
  | PyFloat f => float_trunc f
  | PyStr s => int_of_text s
  | _ =>
      Raise (mkExn TypeError
               ("int() argument must be a string, a bytes-like object or a real number, not '"
                  ++ type_name v ++ "'")%string)
  end.

Module Notations.
Declare Scope py_scope.
Delimit Scope py_scope with py.
Notation "x <- m ;; k" := (bind m (fun x => k))
  (at level 61, m at next level, right associativity) : py_scope.
End Notations.

End Py.

(* ================================================================== *)
(** ** [base64.b64encode] (RFC 4648, standard alphabet, padded) *)
(* ================================================================== *)

Module Base64.

Local Open Scope Z_scope.

Definition alphabet : list ascii :=
  list_ascii_of_string
    "ABCDEFGHIJKLMNOPQRSTUVWXYZabcdefghijklmnopqrstuvwxyz0123456789+/".

Definition pad : ascii := "="%char.

(** Sextet to character. *)
Definition b2a (i : Z) : ascii := nth (Z.to_nat i) alphabet pad.

Fixpoint index_from (c : ascii) (l : list ascii) (i : Z) : option Z :=
  match l with
  | [] => None
  | x :: l' => if Ascii.eqb c x then Some i else index_from c l' (i + 1)
  end.

(** Character to sextet. *)
Definition a2b (c : ascii) : option Z := index_from c alphabet 0.

Definition byte_val (b : byte) : Z := Z.of_N (Byte.to_N b).

Definition val_byte (z : Z) : option byte := Byte.of_N (Z.to_N z).

(** Three bytes give four characters; one or two remaining bytes give two
    or three characters and the padding. *)
Fixpoint b64encode (bs : list byte) : string :=
  match bs with
  | [] => EmptyString
  | [a] =>
      let x := byte_val a in
      String (b2a (x / 4))
        (String (b2a (x mod 4 * 16))
           (String pad (String pad EmptyString)))
  | [a; b] =>
      let x := byte_val a in
      let y := byte_val b in
      String (b2a (x / 4))
        (String (b2a (x mod 4 * 16 + y / 16))
           (String (b2a (y mod 16 * 4))
              (String pad EmptyString)))
  | a :: b :: c :: rest =>
      let x := byte_val a in
      let y := byte_val b in
      let z := byte_val c in
      String (b2a (x / 4))
        (String (b2a (x mod 4 * 16 + y / 16))
           (String (b2a (y mod 16 * 4 + z / 64))
              (String (b2a (z mod 64)) (b64encode rest))))
  end.

Definition bytes_of (zs : list Z) : option (list byte) :=
  fold_right
    (fun z acc =>
       match val_byte z, acc with
       | Some b, Some bs => Some (b :: bs)
       | _, _ => None
       end)
    (Some []) zs.

(** The decoder the round trip is stated with: strict RFC 4648 decoding,
    four characters at a time, padding only in the last group. *)
Fixpoint b64decode (s : string) : option (list byte) :=
  match s with
  | EmptyString => Some []
  | String c0 (String c1 (String c2 (String c3 rest))) =>
      match a2b c0, a2b c1 with
      | Some i0, Some i1 =>
          if Ascii.eqb c3 pad then
            match rest with
            | EmptyString =>
                if Ascii.eqb c2 pad
                then if i1 mod 16 =? 0
                     then bytes_of [i0 * 4 + i1 / 16]
                     else None
                else
                  match a2b c2 with
                  | Some i2 =>
                      if i2 mod 4 =? 0
                      then bytes_of [i0 * 4 + i1 / 16;
                                     i1 mod 16 * 16 + i2 / 4]
                      else None
                  | None => None
                  end
            | String _ _ => None
            end
          else
            match a2b c2, a2b c3 with
            | Some i2, Some i3 =>
                match bytes_of [i0 * 4 + i1 / 16;
                                i1 mod 16 * 16 + i2 / 4;
                                i2 mod 4 * 64 + i3],
                      b64decode rest with
                | Some hd, Some tl => Some (hd ++ tl)%list
                | _, _ => None
                end
            | _, _ => None
            end
      | _, _ => None
      end
  | _ => None
  end.

End Base64.

(* ================================================================== *)
(** ** [shared_libs/qdrant/base_collection.py] *)
(* ================================================================== *)

Module QdrantCollection.

Import Py Py.Notations.
Local Open Scope py_scope.
Local Open Scope string_scope.

(** [qdrant_client.models.Distance] *)
Inductive Distance : Set := COSINE | EUCLID | DOT | MANHATTAN.

(** [qdrant_client.models.VectorParams] *)
Record VectorParams : Set := { size : Z; vp_distance : Distance }.

(** [qdrant_client.models.ScoredPoint], the fields [search] reads. *)
Record ScoredPoint : Type := {
  sp_id : pyval;
  sp_payload : pyval;
  sp_score : float
}.

(** What a concrete subclass declares: the two abstract properties, and
    [distance], which the base class answers with [COSINE]. *)
Class Declared : Type := {
  collection_name : string;
  vector_size : Z;
  distance : Distance
}.

Definition declare (name : string) (dim : Z) : Declared :=
  {| collection_name := name; vector_size := dim; distance := COSINE |}.

Section Adapter.

Context {self : Declared} {builtins : Builtins}.

(** [PointStruct] is a pydantic model of the client library: building one
    validates its fields and may raise. *)
Variable PointStruct : Type.
Variable new_PointStruct : Z -> pyval -> pyval -> result PointStruct.

(** [qdrant_client.models.Filter] *)
Variable Filter : Type.

(** The calls of [self.client] *)
Inductive request : Type :=
| GetCollections
| CreateCollection (name : string) (vectors_config : VectorParams)
| Upsert (name : string) (points : list PointStruct)
| Search (name : string) (query_vector : list float) (limit : Z)
         (score_threshold : option float).

(** The store, as far as the adapter can tell: the calls it has received and
    the names of its collections.  Nothing but [CreateCollection] changes the
    names. *)
Record world : Type := World {
  log : list request;
  collections : list string
}.

(** Any call may fail, depending on what the store has seen so far, and a
    search is answered by the store's index. *)
Variable fault : list request -> request -> option exn.
Variable index : list request -> request -> list ScoredPoint.

Definition received (r : request) (w : world) : world :=
  World (log w ++ [r]) (collections w).

Definition client_get_collections : M world (list string) :=
  fun w =>
    match fault (log w) GetCollections with
    | Some e => (Raise e, received GetCollections w)
    | None => (Ok (collections w), received GetCollections w)
    end.

Definition client_create_collection (name : string) (cfg : VectorParams)
  : M world unit :=
  fun w =>
    let r := CreateCollection name cfg in
    match fault (log w) r with
    | Some e => (Raise e, received r w)
    | None =>
        if existsb (String.eqb name) (collections w)
        then (Raise (mkExn APIError
                       ("Collection `" ++ name ++ "` already exists!")),
              received r w)
        else (Ok tt, World (log w ++ [r]) (collections w ++ [name]))
    end.

Definition client_upsert (name : string) (points : list PointStruct)
  : M world unit :=
  fun w =>
    let r := Upsert name points in
    match fault (log w) r with
    | Some e => (Raise e, received r w)
    | None => (Ok tt, received r w)
    end.

Definition client_search (name : string) (query_vector : list float)
  (limit : Z) (score_threshold : option float) : M world (list ScoredPoint) :=
  fun w =>
    let r := Search name query_vector limit score_threshold in
    match fault (log w) r with
    | Some e => (Raise e, received r w)
    | None => (Ok (index (log w) r), received r w)
    end.

Definition create_collection : M world unit :=
  try_except
    (collections_names <- client_get_collections ;;
     if existsb (String.eqb collection_name) collections_names
     then ret tt
     else client_create_collection collection_name
            {| size := vector_size; vp_distance := distance |})
    [([Exception],
      fun e => raise (mkExn RuntimeError
                        ("Failed to create collection '" ++ collection_name
                           ++ "': " ++ exn_str e)))].

(** The body of the loop of [add_records]: one record to one point. *)
Definition point_of (rec : kwargs) : result PointStruct :=
  match getitem rec "id" with
  | Raise e => Raise e
  | Ok id_value =>
      match int id_value with
      | Raise e => Raise e
      | Ok id =>
          match getitem rec "vector" with
          | Raise e => Raise e
          | Ok vector =>
              new_PointStruct id vector (get rec "payload" (PyDict []))
          end
      end
  end.

Definition add_records (records : list kwargs) : M world unit :=
  match records with
  | [] => raise (mkExn ValueError "No records provided for upsert.")
  | _ :: _ =>
      points <- for_each records (fun rec => lift (point_of rec)) ;;
      try_except
        (client_upsert collection_name points)
        [([Exception],
          fun e => raise (mkExn RuntimeError
                            ("Failed to upsert records into '"
                               ++ collection_name ++ "': " ++ exn_str e)))]
  end.

Definition hit (point : ScoredPoint) : pyval :=
  PyDict [("id", sp_id point);
          ("payload", sp_payload point);
          ("score", PyFloat (sp_score point))].

Definition search (query_vector : list float) (limit : Z)
  (filter : option Filter) (score_threshold : option float)
  : M world (list pyval) :=
  results <- try_except
               (client_search collection_name query_vector limit
                  score_threshold)
               [([Exception],
                 fun e => raise (mkExn RuntimeError
                                   ("Search in '" ++ collection_name
                                      ++ "' failed: " ++ exn_str e)))] ;;
  ret (map hit results).

End Adapter.

Arguments GetCollections {PointStruct}.
Arguments CreateCollection {PointStruct} name vectors_config.
Arguments Upsert {PointStruct} name points.
Arguments Search {PointStruct} name query_vector limit score_threshold.

(** *** What the properties below speak of *)

(** How many calls of each kind a log holds. *)
Definition upserts {P : Type} (l : list (request P)) : nat :=
  List.length (filter (fun r => match r with Upsert _ _ => true | _ => false end) l).

Definition creations {P : Type} (l : list (request P)) : nat :=
  List.length
    (filter (fun r => match r with CreateCollection _ _ => true | _ => false end) l).

(** Scores from best to worst: no score is below the one after it. *)
Fixpoint non_increasing (scores : list float) : bool :=
  match scores with
  | a :: (b :: _) as rest => PrimFloat.leb b a && non_increasing rest
  | _ => true
  end.

(** A record on which the first two arguments of [PointStruct] cannot be
    evaluated: no ["id"], an ["id"] that [int] refuses, or no ["vector"]. *)
Definition malformed {builtins : Builtins} (rec : kwargs) : Prop :=
  lookup "id" rec = None
  \/ (exists v e, lookup "id" rec = Some v /\ int v = Raise e)
  \/ lookup "vector" rec = None.

(** [int] refuses a text by [ValueError], as it does a literal that is not
    a number or one that has too many digits. *)
Definition refuses_by_ValueError (builtins : Builtins) : Prop :=
  forall s e, int_of_text s = Raise e -> exn_cls e = ValueError.

(** The classes of what [rec["id"]], [int(...)] and [rec["vector"]] raise. *)
Definition coercion_or_lookup (e : exn) : bool :=
  existsb (exn_class_eqb (exn_cls e))
    [KeyError; TypeError; ValueError; OverflowError].

(** A store that keeps its word: hits come best first, and none is below
    the threshold of the request. *)
Definition honours {P : Type}
  (index : list (request P) -> request P -> list ScoredPoint) : Prop :=
  forall l name query_vector limit score_threshold,
    let hits := index l (Search name query_vector limit score_threshold) in
    non_increasing (map sp_score hits) = true
    /\ forall t, score_threshold = Some t ->
                 Forall (fun p => PrimFloat.leb t (sp_score p) = true) hits.

(** What [create_collection] raises when a call of the store raised [e], and
    the configuration it asks for. *)
Definition creation_failed {self : Declared} (e : exn) : exn :=
  mkExn RuntimeError
    ("Failed to create collection '" ++ collection_name ++ "': " ++ exn_str e).

Definition declared_config {self : Declared} : VectorParams :=
  {| size := vector_size; vp_distance := distance |}.

End QdrantCollection.

(* ================================================================== *)
(** ** The OpenAI SDK client and pydantic models, as the adapters use them *)
(* ================================================================== *)

Module OpenAI.

Import Py.

(** The response of [chat.completions.create], down to the field the
    adapters read: [response.choices[0].message.content]. *)
Record ChatCompletionMessage : Type := { content : option string }.
Record Choice : Type := { message : ChatCompletionMessage }.
Record ChatCompletion : Type := { choices : list Choice }.

(** What the adapters do to the outside: a call of the SDK client's
    [chat.completions.create], with the keyword arguments of the call, and a
    pause of [time.sleep].  What the SDK client does inside one call (its
    own HTTP requests, its own retries) is not part of the trace. *)
Inductive event : Type :=
| Create (request : kwargs)
| Sleep (seconds : Z).

Definition trace : Type := list event.

Section Client.

(** One call of [create] answers or raises, depending on the calls made so
    far. *)
Variable endpoint : trace -> kwargs -> result ChatCompletion.

(** [self.client.chat.completions.create], called with the keywords of
    [request]. *)
Definition chat_completions_create (request : kwargs)
  : M trace ChatCompletion :=
  fun t => (endpoint t request, (t ++ [Create request])%list).

End Client.

(** [time.sleep(seconds)] *)
Definition sleep (seconds : Z) : M trace unit :=
  fun t => (Ok tt, (t ++ [Sleep seconds])%list).

(** [response.choices[0].message.content]; a missing content is [None]. *)
Definition first_choice_content (response : ChatCompletion) : result pyval :=
  match first (choices response) with
  | Raise e => Raise e
  | Ok choice =>
      Ok (match content (message choice) with
          | Some text => PyStr text
          | None => PyNone
          end)
  end.

Definition create_name : string := "Completions.create".

(** *** What the properties below speak of *)

(** The requests a trace holds, oldest first. *)
Fixpoint requests (t : trace) : list kwargs :=
  match t with
  | [] => []
  | Create request :: t' => request :: requests t'
  | Sleep _ :: t' => requests t'
  end.

(** What a run that starts after [t] adds to the trace, and the requests
    among it. *)
Definition added {A} (run : M trace A) (t : trace) : trace :=
  skipn (List.length t) (snd (run t)).

Definition issued {A} (run : M trace A) (t : trace) : list kwargs :=
  requests (added run t).

(** The message list a request carries. *)
Definition carries (messages : list pyval) (request : kwargs) : Prop :=
  lookup "messages" request = Some (PyList messages).

(** No key of [kw] is one of [names]. *)
Definition fresh (names : list string) (kw : kwargs) : Prop :=
  Forall (fun k => ~ In k names) (map fst kw).

End OpenAI.

Module Pydantic.

Import Py.

(** A subclass of [pydantic.BaseModel], as [generate_json] uses it: the class
    method that validates a JSON text into an instance, and the two ways an
    instance is given back, as a dict and as JSON text.  Serialising to JSON
    runs the serialisers the subclass declares and may raise (pydantic's
    [PydanticSerializationError]). *)
Class BaseModel : Type := {
  instance : Type;
  model_validate_json : pyval -> result instance;
  model_dump : instance -> kwargs;
  model_dump_json : instance -> result string
}.

(** *** What the properties below speak of *)

(** The text is valid JSON and fits the model. *)
Definition conforms {response_model : BaseModel} (data : pyval) : Prop :=
  exists obj, model_validate_json data = Ok obj.

(** pydantic reports a text it refuses by [ValidationError]; the adapter
    provides for [json.JSONDecodeError] as well. *)
Definition reports_by_validation_error (response_model : BaseModel) : Prop :=
  forall data e,
    model_validate_json data = Raise e ->
    exn_cls e = ValidationError \/ exn_cls e = JSONDecodeError.

End Pydantic.

(* ================================================================== *)
(** ** [shared_libs/llm/local_opemnai_client.py] *)
(* ================================================================== *)

Module LocalOpenaiClient.

Import Py Py.Notations OpenAI Pydantic.
Local Open Scope py_scope.
Local Open Scope string_scope.

Definition system_message (system_prompt : string) : pyval :=
  PyDict [("role", PyStr "system"); ("content", PyStr system_prompt)].

Definition text_part (prompt : string) : pyval :=
  PyDict [("type", PyStr "text"); ("text", PyStr prompt)].

Definition image_part (data_uri : string) : pyval :=
  PyDict [("type", PyStr "image_url");
          ("image_url", PyDict [("url", PyStr data_uri)])].

Definition user_message (content : pyval) : pyval :=
  PyDict [("role", PyStr "user"); ("content", content)].

(** [messages = []; if system_prompt: messages.append({...})] *)
Definition opening (system_prompt : string) : list pyval :=
  if str_truthy system_prompt
  then ([] ++ [system_message system_prompt])%list
  else [].

Section Adapter.

Context {builtins : Builtins}.

(** [self.model_name], set by the constructor of the base class. *)
Variable model_name : string.

Variable endpoint : trace -> kwargs -> result ChatCompletion.

(** The files [open] can see: a path gives bytes or raises. *)
Variable files : string -> result (list byte).

Definition generate (prompt : string) (max_tokens : Z) (temperature : float)
  (system_prompt : string) (kw : kwargs) : M trace pyval :=
  response <-
    try_except
      (let messages := opening system_prompt in
       let messages :=
         (messages ++ [user_message (PyList [text_part prompt])])%list in
       call_kw create_name (chat_completions_create endpoint)
         [("model", PyStr model_name);
          ("messages", PyList messages);
          ("max_tokens", PyInt max_tokens);
          ("temperature", PyFloat temperature)]
         kw)
      [([Exception],
        fun e => raise (mkExn RuntimeError
                          ("server generate request failed: " ++ exn_str e)))] ;;
  try_except
    (lift (first_choice_content response))
    [([AttributeError; KeyError; IndexError],
      fun e => raise (mkExn RuntimeError
                        ("Failed to parse server generate response: "
                           ++ exn_str e)))].

Definition generate_json (prompt : string) (max_tokens : Z)
  (response_model : BaseModel) (temperature : float)
  (system_prompt : string) (kw : kwargs) : M trace pyval :=
  response <-
    try_except
      (let messages := opening system_prompt in
       let messages := (messages ++ [user_message (PyStr prompt)])%list in
       call_kw create_name (chat_completions_create endpoint)
         [("model", PyStr model_name);
          ("messages", PyList messages);
          ("max_tokens", PyInt max_tokens);
          ("temperature", PyFloat temperature)]
         kw)
      [([Exception],
        fun e => raise (mkExn RuntimeError
                          ("server generate_json request failed: "
                             ++ exn_str e)))] ;;
  json_response <-
    try_except
      (lift (first_choice_content response))
      [([AttributeError; IndexError],
        fun _ => raise (mkExn RuntimeError
                          "Failed to retrieve content from model response"))] ;;
  try_except
    (parsed <- lift (model_validate_json json_response) ;;
     dumped <- lift (model_dump_json parsed) ;;
     ret (PyStr dumped))
    [([ValidationError],
      fun ve => raise (mkExn ValueError
                         ("Invalid JSON structure: " ++ exn_str ve)));
     ([JSONDecodeError],
      fun je => raise (mkExn ValueError
                         ("Failed to decode JSON response: " ++ exn_str je)))].

(** [open(file, "rb")] followed by [read()]: only a [str] path is modelled. *)
Definition read_binary (file : pyval) : result (list byte) :=
  match file with
  | PyStr path => files path
  | _ =>
      Raise (mkExn TypeError
               ("expected str, bytes or os.PathLike object, not "
                  ++ type_name file))
  end.

Definition data_uri_prefix : string := "data:image/jpeg;base64,".

(** [def _encode_image_to_data_uri(self: str) -> str]: a function of the
    class with ONE parameter, named [self], which the body uses as the path.
    It carries no [staticmethod] decorator. *)
Definition _encode_image_to_data_uri : pyfunction trace string :=
  {| qualname := "LocalOpenaiClient._encode_image_to_data_uri";
     params := ["self"];
     body := fun args =>
       match args with
       | [self] =>
           try_except
             (img <- lift (read_binary self) ;;
              let encoded_bytes := Base64.b64encode img in
              ret (data_uri_prefix ++ encoded_bytes))
             [([Exception],
               fun e => raise (mkExn RuntimeError
                                 ("Failed to encode image '"
                                    ++ match self with
                                       | PyStr path => path
                                       | _ => "<" ++ type_name self ++ " object>"
                                       end
                                    ++ "': " ++ exn_str e)))]
       | _ => raise (mkExn TypeError "unbound parameter")
       end |}.
(* The last case of [body] is never reached through [Py.call], which
   compares the number of arguments with [params] first. *)

(** The receiver of the methods. *)
Definition self_object : pyval := PyObject "LocalOpenaiClient".

Definition generate_with_images (prompt : string)
  (images : option (list string)) (system_prompt : string)
  (max_tokens : Z) (temperature : float) : M trace pyval :=
  let images := match images with None => [] | Some l => l end in
  response <-
    try_except
      (let messages := opening system_prompt in
       parts <- for_each images (fun img_path =>
                  data_uri <- call_method self_object
                                _encode_image_to_data_uri [PyStr img_path] ;;
                  ret (image_part data_uri)) ;;
       let content_elements := ([text_part prompt] ++ parts)%list in
       let messages :=
         (messages ++ [user_message (PyList content_elements)])%list in
       chat_completions_create endpoint
         [("model", PyStr model_name);
          ("messages", PyList messages);
          ("max_tokens", PyInt max_tokens);
          ("temperature", PyFloat temperature)])
      [([Exception],
        fun e => raise (mkExn RuntimeError
                          ("server generate_with_images request failed: "
                             ++ exn_str e)))] ;;
  try_except
    (match first (choices response) with
     | Raise e => raise e
     | Ok choice =>
         match content (message choice) with
         | Some text => ret (PyStr (strip text))
         | None =>
             raise (mkExn AttributeError
                      "'NoneType' object has no attribute 'strip'")
         end
     end)
    [([AttributeError; KeyError; IndexError],
      fun e => raise (mkExn RuntimeError
                        ("Failed to parse server generate_with_images response: "
                           ++ exn_str e)))].

(** *** What the properties below speak of *)

(** The keywords [generate] and [generate_with_images] pass by name. *)
Definition chat_keywords (messages : list pyval) (max_tokens : Z)
  (temperature : float) : kwargs :=
  [("model", PyStr model_name);
   ("messages", PyList messages);
   ("max_tokens", PyInt max_tokens);
   ("temperature", PyFloat temperature)].

(** What the two handlers of the last [try] of [generate_json] make of an
    exception: a [ValidationError] and a [JSONDecodeError] are raised again
    as [ValueError], anything else goes on as it is. *)
Definition validation_handled (e : exn) : exn :=
  if isinstance e ValidationError
  then mkExn ValueError ("Invalid JSON structure: " ++ exn_str e)
  else if isinstance e JSONDecodeError
  then mkExn ValueError ("Failed to decode JSON response: " ++ exn_str e)
  else e.

(** The call [generate_json] makes, on its own. *)
Definition json_completion (prompt : string) (max_tokens : Z)
  (temperature : float) (system_prompt : string) (kw : kwargs)
  : M trace ChatCompletion :=
  call_kw create_name (chat_completions_create endpoint)
    (chat_keywords (opening system_prompt ++ [user_message (PyStr prompt)])%list
       max_tokens temperature)
    kw.

End Adapter.

End LocalOpenaiClient.

(* ================================================================== *)
(** ** [shared_libs/llm/openai_client.py] *)
(* ================================================================== *)

Module OpenaiClient.

Import Py Py.Notations OpenAI.
Local Open Scope py_scope.
Local Open Scope string_scope.

Section Adapter.

Variable model_name : string.

Variable endpoint : trace -> kwargs -> result ChatCompletion.

Definition generate (prompt : string) (system_prompt : string) (kw : kwargs)
  : M trace pyval :=
  response <-
    try_except
      (let messages := LocalOpenaiClient.opening system_prompt in
       let messages :=
         (messages ++ [LocalOpenaiClient.user_message
                         (PyList [LocalOpenaiClient.text_part prompt])])%list in
       call_kw create_name (chat_completions_create endpoint)
         [("model", PyStr model_name);
          ("messages", PyList messages);
          ("temperature", PyFloat 0%float)]
         kw)
      [([Exception],
        fun e =>
          _ <- sleep 60 ;;
          raise (mkExn RuntimeError
                   ("OpenAi generate request failed: " ++ exn_str e)))] ;;
  try_except
    (lift (first_choice_content response))
    [([AttributeError; KeyError; IndexError],
      fun e => raise (mkExn RuntimeError
                        ("Failed to parse OpenAI generate response: "
                           ++ exn_str e)))].

(** *** What the properties below speak of *)

(** The keywords [generate] passes by name. *)
Definition chat_keywords (messages : list pyval) : kwargs :=
  [("model", PyStr model_name);
   ("messages", PyList messages);
   ("temperature", PyFloat 0%float)].

End Adapter.

End OpenaiClient.

(* ================================================================== *)
(** ** The text builtins on plain ASCII, to run the adapters on *)
(* ================================================================== *)

(** An instance of [Py.Builtins] for the runs below, whose texts are short
    and made of ASCII letters, digits and blanks: on such texts it answers
    as CPython does.  No theorem is about this instance; the closed runs
    need some interpreter to evaluate with. *)
Module AsciiBuiltins.

Import Py.
Local Open Scope string_scope.

(** White space within ASCII: codes 9 to 13, 28 to 31 and 32. *)
Definition is_space (c : ascii) : bool :=
  let n := nat_of_ascii c in
  (Nat.leb 9 n && Nat.leb n 13) || (Nat.leb 28 n && Nat.leb n 32).

Fixpoint lstrip (s : string) : string :=
  match s with
  | EmptyString => EmptyString
  | String c r => if is_space c then lstrip r else s
  end.

Fixpoint rev_onto (s acc : string) : string :=
  match s with
  | EmptyString => acc
  | String c r => rev_onto r (String c acc)
  end.

Definition str_rev (s : string) : string := rev_onto s EmptyString.

(** [s.strip()] on ASCII text *)
Definition strip (s : string) : string :=
  str_rev (lstrip (str_rev (lstrip s))).

Definition digit_value (c : ascii) : option Z :=
  let n := nat_of_ascii c in
  if Nat.leb 48 n && Nat.leb n 57 then Some (Z.of_nat (n - 48)) else None.

(** The digits of a base-10 literal: single underscores may separate
    digits; [after_digit] tells whether the previous character was one. *)
Fixpoint literal_digits (s : string) (acc : Z) (after_digit : bool)
  : option Z :=
  match s with
  | EmptyString => if after_digit then Some acc else None
  | String c r =>
      match digit_value c with
      | Some d => literal_digits r (10 * acc + d)%Z true
      | None =>
          if Ascii.eqb c "_" && after_digit
          then literal_digits r acc false
          else None
      end
  end.

Definition parse_int (s : string) : option Z :=
  match strip s with
  | String "-" r => option_map Z.opp (literal_digits r 0%Z false)
  | String "+" r => literal_digits r 0%Z false
  | r => literal_digits r 0%Z false
  end.

(** [int(s)] on ASCII text *)
Definition int_of_text (s : string) : result Z :=
  match parse_int s with
  | Some z => Ok z
  | None =>
      Raise (mkExn ValueError
               ("invalid literal for int() with base 10: '" ++ s ++ "'"))
  end.

Definition builtins : Builtins :=
  {| Py.int_of_text := int_of_text; Py.strip := strip |}.

End AsciiBuiltins.

(* ================================================================== *)
(** ** A concrete response model, to run the adapters on *)
(* ================================================================== *)

(** JSON texts, read as pydantic's parser reads them (RFC 8259 plus the
    literals [NaN], [Infinity] and [-Infinity]).  Strings are kept as UTF-8
    bytes; a number with a fraction or an exponent is kept as written. *)
Module Json.

Local Open Scope char_scope.

Inductive json : Type :=
| JNull
| JBool (b : bool)
| JInt (z : Z)
| JFloat (lexeme : string)
| JStr (s : string)
| JArr (items : list json)
| JObj (members : list (string * json)).

Definition is_ws (c : ascii) : bool :=
  Ascii.eqb c " " || Ascii.eqb c "009" || Ascii.eqb c "010" || Ascii.eqb c "013".

Fixpoint skip_ws (s : string) : string :=
  match s with
  | String c r => if is_ws c then skip_ws r else s
  | EmptyString => EmptyString
  end.

Fixpoint strip_prefix (p s : string) : option string :=
  match p, s with
  | EmptyString, _ => Some s
  | String a p', String b s' =>
      if Ascii.eqb a b then strip_prefix p' s' else None
  | String _ _, EmptyString => None
  end.

(** The longest run of decimal digits at the head of [s], and what follows. *)
Fixpoint span_digits (s : string) : string * string :=
  match s with
  | String c r =>
      match AsciiBuiltins.digit_value c with
      | Some _ => let (ds, rest) := span_digits r in (String c ds, rest)
      | None => (EmptyString, s)
      end
  | EmptyString => (EmptyString, EmptyString)
  end.

Fixpoint digits_value (ds : string) (acc : Z) : Z :=
  match ds with
  | String c r =>
      match AsciiBuiltins.digit_value c with
      | Some d => digits_value r (10 * acc + d)%Z
      | None => acc
      end
  | EmptyString => acc
  end.

Definition parse_fraction (s : string) : option (string * string) :=
  match s with
  | String "." r =>
      match span_digits r with
      | (EmptyString, _) => None
      | (ds, rest) => Some (String "." ds, rest)
      end
  | _ => Some (EmptyString, s)
  end.

Definition parse_exponent (s : string) : option (string * string) :=
  match s with
  | String e r =>
      if Ascii.eqb e "e" || Ascii.eqb e "E" then
        let (sign, r1) :=
          match r with
          | String "+" r' => (String "+" EmptyString, r')
          | String "-" r' => (String "-" EmptyString, r')
          | _ => (EmptyString, r)
          end in
        match span_digits r1 with
        | (EmptyString, _) => None
        | (ds, rest) => Some (String e (sign ++ ds), rest)
        end
      else Some (EmptyString, s)
  | EmptyString => Some (EmptyString, s)
  end.

Definition parse_number (s : string) : option (json * string) :=
  let (neg, s1) :=
    match s with
    | String "-" r => (true, r)
    | _ => (false, s)
    end in
  match strip_prefix "Infinity" s1 with
  | Some rest => Some (JFloat (if neg then "-Infinity" else "Infinity"), rest)
  | None =>
      match span_digits s1 with
      | (EmptyString, _) => None
      | (String "0" (String _ _), _) => None
      | (ds, s2) =>
          match parse_fraction s2 with
          | None => None
          | Some (frac, s3) =>
              match parse_exponent s3 with
              | None => None
              | Some (ex, s4) =>
                  match frac, ex with
                  | EmptyString, EmptyString =>
                      let v := digits_value ds 0 in
                      Some (JInt (if neg then (- v)%Z else v), s4)
                  | _, _ =>
                      Some (JFloat ((if neg then "-" else "") ++ ds ++ frac ++ ex),
                            s4)
                  end
              end
          end
      end
  end.

Definition hex_value (c : ascii) : option nat :=
  let n := nat_of_ascii c in
  if Nat.leb 48 n && Nat.leb n 57 then Some (n - 48)
  else if Nat.leb 65 n && Nat.leb n 70 then Some (n - 55)
  else if Nat.leb 97 n && Nat.leb n 102 then Some (n - 87)
  else None.

(** UTF-8 of a code point below 65536. *)
Definition utf8 (n : nat) : string :=
  if Nat.ltb n 128 then String (ascii_of_nat n) EmptyString
  else if Nat.ltb n 2048 then
    String (ascii_of_nat (192 + n / 64))
      (String (ascii_of_nat (128 + n mod 64)) EmptyString)
  else
    String (ascii_of_nat (224 + n / 4096))
      (String (ascii_of_nat (128 + (n / 64) mod 64))
         (String (ascii_of_nat (128 + n mod 64)) EmptyString)).

(** The characters of a string literal after its opening quote. *)
Fixpoint parse_chars (s : string) : option (string * string) :=
  let cons (c : string) (r : option (string * string)) :=
    match r with
    | Some (body, rest) => Some ((c ++ body)%string, rest)
    | None => None
    end in
  let one (c : ascii) := String c EmptyString in
  match s with
  | EmptyString => None
  | String c r =>
      if Ascii.eqb c "034" then Some (EmptyString, r)
      else if Ascii.eqb c "\" then
        match r with
        | String "034" r' => cons (one "034") (parse_chars r')
        | String "\" r' => cons (one "\") (parse_chars r')
        | String "/" r' => cons (one "/") (parse_chars r')
        | String "b" r' => cons (one "008") (parse_chars r')
        | String "f" r' => cons (one "012") (parse_chars r')
        | String "n" r' => cons (one "010") (parse_chars r')
        | String "r" r' => cons (one "013") (parse_chars r')
        | String "t" r' => cons (one "009") (parse_chars r')
        | String "u" (String h1 (String h2 (String h3 (String h4 r')))) =>
            match hex_value h1, hex_value h2, hex_value h3, hex_value h4 with
            | Some a, Some b, Some c', Some d =>
                cons (utf8 (((a * 16 + b) * 16 + c') * 16 + d)) (parse_chars r')
            | _, _, _, _ => None
            end
        | _ => None
        end
      else if Nat.ltb (nat_of_ascii c) 32 then None
      else cons (one c) (parse_chars r)
  end.

Definition parse_literal (s : string) : option (json * string) :=
  match strip_prefix "true" s, strip_prefix "false" s,
        strip_prefix "null" s, strip_prefix "NaN" s with
  | Some r, _, _, _ => Some (JBool true, r)
  | _, Some r, _, _ => Some (JBool false, r)
  | _, _, Some r, _ => Some (JNull, r)
  | _, _, _, Some r => Some (JFloat "NaN", r)
  | _, _, _, _ => parse_number s
  end.

Fixpoint parse_value (fuel : nat) (s : string) : option (json * string) :=
  match fuel with
  | O => None
  | S fuel' =>
      match skip_ws s with
      | String "{" r =>
          match skip_ws r with
          | String "}" r' => Some (JObj [], r')
          | r1 =>
              match parse_members fuel' r1 with
              | Some (ms, rest) => Some (JObj ms, rest)
              | None => None
              end
          end
      | String "[" r =>
          match skip_ws r with
          | String "]" r' => Some (JArr [], r')
          | r1 =>
              match parse_items fuel' r1 with
              | Some (vs, rest) => Some (JArr vs, rest)
              | None => None
              end
          end
      | String "034" r =>
          match parse_chars r with
          | Some (body, rest) => Some (JStr body, rest)
          | None => None
          end
      | s' => parse_literal s'
      end
  end

with parse_members (fuel : nat) (s : string)
  : option (list (string * json) * string) :=
  match fuel with
  | O => None
  | S fuel' =>
      match skip_ws s with
      | String "034" r =>
          match parse_chars r with
          | Some (key, r1) =>
              match skip_ws r1 with
              | String ":" r2 =>
                  match parse_value fuel' r2 with
                  | Some (v, r3) =>
                      match skip_ws r3 with
                      | String "}" rest => Some ([(key, v)], rest)
                      | String "," r4 =>
                          match parse_members fuel' r4 with
                          | Some (ms, rest) => Some ((key, v) :: ms, rest)
                          | None => None
                          end
                      | _ => None
                      end
                  | None => None
                  end
              | _ => None
              end
          | None => None
          end
      | _ => None
      end
  end

with parse_items (fuel : nat) (s : string) : option (list json * string) :=
  match fuel with
  | O => None
  | S fuel' =>
      match parse_value fuel' s with
      | Some (v, r1) =>
          match skip_ws r1 with
          | String "]" rest => Some ([v], rest)
          | String "," r2 =>
              match parse_items fuel' r2 with
              | Some (vs, rest) => Some (v :: vs, rest)
              | None => None
              end
          | _ => None
          end
      | None => None
      end
  end.

(** A whole text: one value, white space around it and nothing else.  Every
    recursive call has read a character, so the length bounds the depth. *)
Definition parse (s : string) : option json :=
  match parse_value (2 * String.length s + 2) s with
  | Some (v, rest) =>
      match skip_ws rest with
      | EmptyString => Some v
      | String _ _ => None
      end
  | None => None
  end.

End Json.

(** [class A(BaseModel, strict=True): a: int]: one integer field, no
    coercion of other JSON types; unknown members are ignored and of a
    repeated member the last one counts. *)
Module ModelA.

Import Py Pydantic.
Local Open Scope string_scope.

Fixpoint last_member (k : string) (ms : list (string * Json.json))
  : option Json.json :=
  match ms with
  | [] => None
  | (k', v) :: ms' =>
      match last_member k ms' with
      | Some v' => Some v'
      | None => if String.eqb k k' then Some v else None
      end
  end.

Definition invalid (msg : string) : exn := mkExn ValidationError msg.

Definition validate_json (data : pyval) : result Z :=
  match data with
  | PyStr text =>
      match Json.parse text with
      | None => Raise (invalid "Invalid JSON [type=json_invalid]")
      | Some (Json.JObj members) =>
          match last_member "a" members with
          | Some (Json.JInt z) => Ok z
          | Some _ =>
              Raise (invalid "a: Input should be a valid integer [type=int_type]")
          | None => Raise (invalid "a: Field required [type=missing]")
          end
      | Some _ =>
          Raise (invalid "Input should be an object [type=model_type]")
      end
  | _ =>
      Raise (invalid
               "JSON input should be string, bytes or bytearray [type=json_type]")
  end.

(** [s] between double quotes (code 34). *)
Definition quoted (s : string) : string :=
  String "034"%char (s ++ String "034"%char EmptyString).

Definition decimal (z : Z) : string :=
  DecimalString.NilZero.string_of_int (Z.to_int z).

#[global] Instance A : BaseModel := {|
  instance := Z;
  model_validate_json := validate_json;
  model_dump := fun a => [("a", PyInt a)];
  model_dump_json := fun a => Ok ("{" ++ quoted "a" ++ ":" ++ decimal a ++ "}")
|}.

(** [class Sealed(A)] with a serialiser for JSON that refuses every value:

      @field_serializer("a", when_used="json")
      def hide(self, a): raise ValueError("sealed")

    It validates what [A] validates and dumps to a dict as [A] does;
    [model_dump_json] runs [hide], and pydantic reports what [hide] raised
    by [PydanticSerializationError]. *)
Definition Sealed : BaseModel := {|
  instance := Z;
  model_validate_json := validate_json;
  model_dump := fun a => [("a", PyInt a)];
  model_dump_json := fun _ =>
    Raise (mkExn PydanticSerializationError
             "Error calling function `hide`: ValueError: sealed")
|}.

End ModelA.

(* ================================================================== *)
(** ** Concrete stores, endpoints and files, to run the adapters on *)
(* ================================================================== *)

Module Scenarios.

Import Py.
Local Open Scope string_scope.

(** *** A vector store *)

Definition books : QdrantCollection.Declared := QdrantCollection.declare "books" 2.

(** A point as the library keeps it; a vector must be a list. *)
Definition Point : Type := (Z * pyval * pyval)%type.

Definition new_Point (id : Z) (vector payload : pyval) : result Point :=
  match vector with
  | PyList _ => Ok (id, vector, payload)
  | _ => Raise (mkExn ValidationError "vector: Input should be a valid list")
  end.

Definition request : Type := QdrantCollection.request Point.

Definition reliable : list request -> request -> option exn :=
  fun _ _ => None.

(** A store that lists its collections but refuses to create one. *)
Definition creation_refused : list request -> request -> option exn :=
  fun _ r =>
    match r with
    | QdrantCollection.CreateCollection _ _ =>
        Some (mkExn APIError "timed out")
    | _ => None
    end.

Definition no_hits : list request -> request -> list QdrantCollection.ScoredPoint :=
  fun _ _ => [].

Definition scored (id : Z) (score : float) : QdrantCollection.ScoredPoint :=
  {| QdrantCollection.sp_id := PyInt id;
     QdrantCollection.sp_payload := PyDict [];
     QdrantCollection.sp_score := score |}.

(** An index that answers every search with the same two points, best
    first, and drops what is below the threshold. *)
Definition two_hits : list request -> request -> list QdrantCollection.ScoredPoint :=
  fun _ r =>
    match r with
    | QdrantCollection.Search _ _ _ (Some t) =>
        filter (fun p => PrimFloat.leb t (QdrantCollection.sp_score p))
          [scored 1 0.75%float; scored 2 0.5%float]
    | _ => [scored 1 0.75%float; scored 2 0.5%float]
    end.

Definition empty_store : QdrantCollection.world Point :=
  QdrantCollection.World [] [].

Definition good_record : kwargs :=
  [("id", PyStr "7"); ("vector", PyList [PyFloat 0.5%float; PyFloat 0.25%float])].

Definition record_without_id : kwargs :=
  [("vector", PyList [PyFloat 0.5%float; PyFloat 0.25%float])].

Definition record_with_bad_id : kwargs :=
  [("id", PyStr "seven"); ("vector", PyList [PyFloat 0.5%float])].

(** Its vector is a text, which [PointStruct] refuses. *)
Definition record_with_bad_vector : kwargs :=
  [("id", PyInt 1); ("vector", PyStr "0.5, 0.25")].

(** *** A chat-completion endpoint *)

Definition reply (text : string) : OpenAI.ChatCompletion :=
  {| OpenAI.choices :=
       [{| OpenAI.message := {| OpenAI.content := Some text |} |}] |}.

Definition answering (text : string)
  : OpenAI.trace -> kwargs -> result OpenAI.ChatCompletion :=
  fun _ _ => Ok (reply text).

(** An endpoint that fails the first request it sees and answers the later
    ones. *)
Definition failing_once (text : string)
  : OpenAI.trace -> kwargs -> result OpenAI.ChatCompletion :=
  fun t _ =>
    match t with
    | [] => Raise (mkExn APIError "Connection error.")
    | _ :: _ => Ok (reply text)
    end.

Definition json_a1 : string := "{" ++ ModelA.quoted "a" ++ ": 1}".

(** *** Files *)

Definition cat_jpg : list byte := [xff; xd8; xff; xe0; x00].

Definition disk (path : string) : result (list byte) :=
  if String.eqb path "cat.jpg" then Ok cat_jpg
  else Raise (mkExn OSError
                ("[Errno 2] No such file or directory: '" ++ path ++ "'")).

End Scenarios.

(* ================================================================== *)
(** ** [shared_libs/arango/base_collection.py] *)
(* ================================================================== *)

Module ArangoCollectionBase.

Import Py.
Local Open Scope string_scope.

(** What the driver raises: its own classes ([arango.exceptions]) beside the
    builtin ones.  Every class derives from [Exception]. *)
Inductive error_class : Set :=
| ArangoError
| ArangoServerError
| CollectionCreateError
| CollectionListError
| DocumentInsertError
| DocumentGetError
| DocumentUpdateError
| DocumentDeleteError
| AQLQueryExecuteError
| CursorNextError
| Builtin (c : exn_class).

Definition error_base (c : error_class) : option error_class :=
  match c with
  | ArangoError => Some (Builtin Exception)
  | ArangoServerError => Some ArangoError
  | Builtin c' =>
      match base c' with
      | Some p => Some (Builtin p)
      | None => None
      end
  | _ => Some ArangoServerError
  end.

Definition error_class_eqb (c d : error_class) : bool :=
  match c, d with
  | ArangoError, ArangoError | ArangoServerError, ArangoServerError
  | CollectionCreateError, CollectionCreateError
  | CollectionListError, CollectionListError
  | DocumentInsertError, DocumentInsertError
  | DocumentGetError, DocumentGetError
  | DocumentUpdateError, DocumentUpdateError
  | DocumentDeleteError, DocumentDeleteError
  | AQLQueryExecuteError, AQLQueryExecuteError
  | CursorNextError, CursorNextError => true
  | Builtin a, Builtin b => exn_class_eqb a b
  | _, _ => false
  end.

Fixpoint derives_upto (n : nat) (c d : error_class) : bool :=
  error_class_eqb c d ||
  match n, error_base c with
  | S n', Some p => derives_upto n' p d
  | _, _ => false
  end.

(** The driver's classes sit three levels below [Exception]. *)
Definition derives (c d : error_class) : bool := derives_upto 4 c d.

(** An exception of the driver: its class and [str(e)]. *)
Record raised : Type := Raised { cls : error_class; text : string }.

Inductive outcome (A : Type) : Type :=
| Returned (a : A)
| Failed (e : raised).
Arguments Returned {A} a.
Arguments Failed {A} e.

(** The calls of the driver. *)
Inductive call : Type :=
| NewClient (hosts : string)
| Db (name username password : string)
| HasCollection (name : string)
| CreateCollection (name : string) (edge : bool)
| Collection (name : string)
| Insert (collection : string) (document : kwargs) (return_new : bool)
| Get (collection key : string)
| UpdateMatch (collection : string) (filters body : kwargs)
| Delete (collection key : string)
| All (collection : string) (limit skip : Z)
| Execute (query : string) (bind_vars : kwargs) (count : bool).

(** The server, as far as the adapter can tell: the calls it has received
    and its collections, each standard ([false]) or edge ([true]).  Nothing
    but [CreateCollection] changes the collections. *)
Record world : Type := World {
  log : list call;
  collections : list (string * bool)
}.

(** A computation of the driver. *)
Definition C (A : Type) : Type := world -> outcome A * world.

Definition and_then {A B} (m : C A) (k : A -> C B) : C B :=
  fun w =>
    match m w with
    | (Returned a, w') => k a w'
    | (Failed e, w') => (Failed e, w')
    end.

Definition done {A} (a : A) : C A := fun w => (Returned a, w).

(** [try: body  except C1 as e: raise h1(e) ... except Exception as e: raise
    h(e)]: every clause of the file raises a builtin exception, and the last
    clause catches whatever the earlier ones let pass. *)
Fixpoint pick (e : raised) (specific : list (error_class * (raised -> exn)))
  (otherwise : raised -> exn) : exn :=
  match specific with
  | [] => otherwise e
  | (c, h) :: rest =>
      if derives (cls e) c then h e else pick e rest otherwise
  end.

Definition try_driver {A} (body : C A)
  (specific : list (error_class * (raised -> exn)))
  (otherwise : raised -> exn) : M world A :=
  fun w =>
    match body w with
    | (Returned a, w') => (Ok a, w')
    | (Failed e, w') => (Raise (pick e specific otherwise), w')
    end.

(** What a concrete subclass declares: the abstract [collection_name], and
    [is_edge_collection], which the base class answers with [False]. *)
Class Declared : Type := {
  collection_name : string;
  is_edge_collection : bool
}.

Definition declare (name : string) : Declared :=
  {| collection_name := name; is_edge_collection := false |}.

(** The attributes [__init__] sets. *)
Record instance : Type := {
  db : string;
  collection : string
}.

Definition decimal (z : Z) : string :=
  DecimalString.NilZero.string_of_int (Z.to_int z).

Section Adapter.

Context {self : Declared}.

(** Any call may fail, depending on what the server has seen so far; what
    the document calls answer is the server's business, and so are the rows
    of a cursor, which may fail while they are read. *)
Variable fault : list call -> call -> option raised.
Variable answer : list call -> call -> pyval.
Variable rows : list call -> call -> list pyval * option raised.

Definition received (c : call) (w : world) : world :=
  World (log w ++ [c]) (collections w).

Definition plain {A} (c : call) (a : A) : C A :=
  fun w =>
    match fault (log w) c with
    | Some e => (Failed e, received c w)
    | None => (Returned a, received c w)
    end.

Definition ArangoClient (hosts : string) : C unit := plain (NewClient hosts) tt.

Definition client_db (name username password : string) : C string :=
  plain (Db name username password) name.

Definition has_collection (name : string) : C bool :=
  fun w =>
    plain (HasCollection name)
      (existsb (fun c => String.eqb name (fst c)) (collections w)) w.

Definition create_collection (name : string) (edge : bool) : C unit :=
  fun w =>
    let c := CreateCollection name edge in
    match fault (log w) c with
    | Some e => (Failed e, received c w)
    | None =>
        if existsb (fun c' => String.eqb name (fst c')) (collections w)
        then (Failed (Raised CollectionCreateError "duplicate name"),
              received c w)
        else (Returned tt,
              World (log w ++ [c]) (collections w ++ [(name, edge)]))
    end.

Definition db_collection (name : string) : C string :=
  plain (Collection name) name.

Definition document_call (c : call) : C pyval :=
  fun w => plain c (answer (log w) c) w.

(** A cursor is opened and read to its end: [list(cursor)]. *)
Definition cursor_call (c : call) : C (list pyval) :=
  fun w =>
    match fault (log w) c with
    | Some e => (Failed e, received c w)
    | None =>
        match rows (log w) c with
        | (_, Some e) => (Failed e, received c w)
        | (items, None) => (Returned items, received c w)
        end
    end.

Definition __init__ (host : string) (port : Z)
  (username password db_name : string) : M world instance :=
  let url := host ++ ":" ++ decimal port in
  bind
    (try_driver
       (and_then (ArangoClient url) (fun _ =>
        client_db db_name username password))
       []
       (fun e => mkExn RuntimeError
                   ("Failed to connect to ArangoDB at " ++ url ++ "/"
                      ++ db_name ++ ": " ++ text e)))
    (fun self_db =>
  bind
    (try_driver
       (if is_edge_collection then
          and_then (has_collection collection_name) (fun present =>
          and_then (if negb present
                    then create_collection collection_name true
                    else done tt) (fun _ =>
          db_collection collection_name))
        else
          and_then (has_collection collection_name) (fun present =>
          and_then (if negb present
                    then create_collection collection_name false
                    else done tt) (fun _ =>
          db_collection collection_name)))
       [(CollectionCreateError,
         fun e => mkExn RuntimeError
                    ("Failed to create or access collection '"
                       ++ collection_name ++ "': " ++ text e))]
       (fun e => mkExn RuntimeError
                   ("Unexpected error accessing collection '"
                      ++ collection_name ++ "': " ++ text e)))
    (fun self_collection =>
  ret {| db := self_db; collection := self_collection |})).

Variable this : instance.

Definition insert_item (item : kwargs) (return_new : bool) : M world pyval :=
  try_driver
    (document_call (Insert (collection this) item return_new))
    []
    (fun e => mkExn ValueError
                ("Failed to insert item into '" ++ collection_name ++ "': "
                   ++ text e)).

Definition get_item (key : string) : M world pyval :=
  try_driver
    (document_call (Get (collection this) key))
    []
    (fun e => mkExn RuntimeError
                ("Failed to get item '" ++ key ++ "' from '"
                   ++ collection_name ++ "': " ++ text e)).

Definition update_item (key : string) (updates : kwargs) : M world pyval :=
  try_driver
    (document_call
       (UpdateMatch (collection this) [("_key", PyStr key)] updates))
    []
    (fun e => mkExn ValueError
                ("Failed to update item '" ++ key ++ "' in '"
                   ++ collection_name ++ "': " ++ text e)).

Definition delete_item (key : string) : M world pyval :=
  try_driver
    (document_call (Delete (collection this) key))
    []
    (fun e => mkExn RuntimeError
                ("Failed to delete item '" ++ key ++ "' from '"
                   ++ collection_name ++ "': " ++ text e)).

Definition find_all (limit skip : Z) : M world (list pyval) :=
  try_driver
    (cursor_call (All (collection this) limit skip))
    []
    (fun e => mkExn RuntimeError
                ("Failed to retrieve documents from '" ++ collection_name
                   ++ "': " ++ text e)).

(** [bind_vars or {}]: [None] and the empty dict both give the empty
    dict. *)
Definition or_empty (bind_vars : option kwargs) : kwargs :=
  match bind_vars with
  | Some ((_ :: _) as d) => d
  | _ => []
  end.

Definition query (query_str : string) (bind_vars : option kwargs)
  (count : bool) : M world (list pyval) :=
  try_driver
    (cursor_call (Execute query_str (or_empty bind_vars) count))
    []
    (fun e => mkExn RuntimeError
                ("Failed to execute query on '" ++ collection_name ++ "': "
                   ++ text e)).

End Adapter.

(** *** What the properties below speak of *)

Definition creations (l : list call) : nat :=
  List.length
    (filter (fun c => match c with CreateCollection _ _ => true | _ => false end) l).

Definition holds (w : world) (name : string) : Prop :=
  In name (map fst (collections w)).

(** The calls [__init__] makes after it has connected. *)
Definition collection_call (c : call) : bool :=
  match c with
  | HasCollection _ | CreateCollection _ _ | Collection _ => true
  | _ => false
  end.

(** What [__init__] raises for a failure [e] of the driver, while connecting
    and while making sure of the collection. *)
Definition connect_error (url db_name : string) (e : raised) : exn :=
  mkExn RuntimeError
    ("Failed to connect to ArangoDB at " ++ url ++ "/" ++ db_name ++ ": "
       ++ text e).

Definition access_error {self : Declared} (e : raised) : exn :=
  if derives (cls e) CollectionCreateError
  then mkExn RuntimeError
         ("Failed to create or access collection '" ++ collection_name
            ++ "': " ++ text e)
  else mkExn RuntimeError
         ("Unexpected error accessing collection '" ++ collection_name
            ++ "': " ++ text e).

End ArangoCollectionBase.

(* ================================================================== *)
(** ** Calling a method again and again *)
(* ================================================================== *)

Module Runs.

Import Py.

(** The world after [n] calls of [run] in a row, whatever each returned or
    raised. *)
Fixpoint again {W A} (n : nat) (run : M W A) (w : W) : W :=
  match n with
  | O => w
  | S n' => again n' run (snd (run w))
  end.

End Runs.

(* ================================================================== *)
(** ** More endpoints and files to run the adapters on *)
(* ================================================================== *)

Module MoreScenarios.

Import Py.
Local Open Scope string_scope.

(** An endpoint that answers without a single choice. *)
Definition silent : OpenAI.trace -> kwargs -> result OpenAI.ChatCompletion :=
  fun _ _ => Ok {| OpenAI.choices := [] |}.

(** Two paths with the same bytes behind them, and nothing else. *)
Definition shelf (path : string) : result (list byte) :=
  if String.eqb path "cat.jpg" || String.eqb path "copy.jpg"
  then Ok Scenarios.cat_jpg
  else Raise (mkExn OSError
                ("[Errno 2] No such file or directory: '" ++ path ++ "'")).

(** *** A document store *)

Definition people : ArangoCollectionBase.Declared :=
  ArangoCollectionBase.declare "people".

Definition knows : ArangoCollectionBase.Declared :=
  {| ArangoCollectionBase.collection_name := "knows";
     ArangoCollectionBase.is_edge_collection := true |}.

Definition fresh_server : ArangoCollectionBase.world :=
  ArangoCollectionBase.World [] [].

Definition healthy
  : list ArangoCollectionBase.call -> ArangoCollectionBase.call
    -> option ArangoCollectionBase.raised :=
  fun _ _ => None.

(** A server nobody can reach. *)
Definition unreachable
  : list ArangoCollectionBase.call -> ArangoCollectionBase.call
    -> option ArangoCollectionBase.raised :=
  fun _ _ =>
    Some (ArangoCollectionBase.Raised
            (ArangoCollectionBase.Builtin OSError) "connection refused").

(** A server that answers every call but document writes and reads. *)
Definition read_only
  : list ArangoCollectionBase.call -> ArangoCollectionBase.call
    -> option ArangoCollectionBase.raised :=
  fun _ c =>
    match c with
    | ArangoCollectionBase.Insert _ _ _ =>
        Some (ArangoCollectionBase.Raised
                ArangoCollectionBase.DocumentInsertError "read only")
    | ArangoCollectionBase.Get _ _ =>
        Some (ArangoCollectionBase.Raised
                ArangoCollectionBase.DocumentGetError "forbidden")
    | _ => None
    end.

(** A server that lets nobody create a collection. *)
Definition creation_denied
  : list ArangoCollectionBase.call -> ArangoCollectionBase.call
    -> option ArangoCollectionBase.raised :=
  fun _ c =>
    match c with
    | ArangoCollectionBase.CreateCollection _ _ =>
        Some (ArangoCollectionBase.Raised
                ArangoCollectionBase.CollectionCreateError "forbidden")
    | _ => None
    end.

Definition no_answer
  : list ArangoCollectionBase.call -> ArangoCollectionBase.call -> pyval :=
  fun _ _ => PyNone.

Definition alice : pyval := PyDict [("_key", PyStr "alice")].

(** A cursor that gives one row and fails on the next batch. *)
Definition broken_cursor
  : list ArangoCollectionBase.call -> ArangoCollectionBase.call
    -> list pyval * option ArangoCollectionBase.raised :=
  fun _ _ =>
    ([alice],
     Some (ArangoCollectionBase.Raised
             ArangoCollectionBase.CursorNextError "cursor lost")).

Definition one_row
  : list ArangoCollectionBase.call -> ArangoCollectionBase.call
    -> list pyval * option ArangoCollectionBase.raised :=
  fun _ _ => ([alice], None).

Definition people_instance : ArangoCollectionBase.instance :=
  {| ArangoCollectionBase.db := "_system";
     ArangoCollectionBase.collection := "people" |}.

End MoreScenarios.

(* ================================================================== *)
(** * Properties *)
(* ================================================================== *)

(** ** Base64: decoding inverts encoding *)

Module Base64Facts.

Import Base64.
Local Open Scope Z_scope.

Lemma byte_val_range (b : byte) : 0 <= byte_val b < 256.
Proof.
  unfold byte_val. pose proof (Byte.to_N_bounded b). lia.
Qed.

Lemma val_byte_val (b : byte) : val_byte (byte_val b) = Some b.
Proof.
  unfold val_byte, byte_val. rewrite N2Z.id. apply Byte.of_to_N.
Qed.

Lemma sextets_checked :
  forallb (fun n =>
             match a2b (b2a (Z.of_nat n)) with
             | Some i => (i =? Z.of_nat n) && negb (Ascii.eqb (b2a (Z.of_nat n)) pad)
             | None => false
             end) (seq 0 64) = true.
Proof. vm_compute. reflexivity. Qed.

Lemma a2b_b2a (i : Z) :
  0 <= i < 64 -> a2b (b2a i) = Some i /\ Ascii.eqb (b2a i) pad = false.
Proof.
  intros Hi.
  pose proof sextets_checked as H.
  rewrite forallb_forall in H.
  specialize (H (Z.to_nat i)).
  rewrite Z2Nat.id in H by lia.
  assert (Hin : In (Z.to_nat i) (seq 0 64)) by (apply in_seq; lia).
  specialize (H Hin).
  destruct (a2b (b2a i)) as [j|]; [|discriminate].
  apply andb_prop in H. destruct H as [Hj Hp].
  apply Z.eqb_eq in Hj. subst j.
  split; [reflexivity|].
  destruct (Ascii.eqb (b2a i) pad); [discriminate|reflexivity].
Qed.

Ltac sextet :=
  match goal with
  | |- context [a2b (b2a ?i)] =>
      let H := fresh in let P := fresh in
      assert (H : 0 <= i < 64) by (Z.div_mod_to_equations; lia);
      destruct (a2b_b2a H) as [-> P]; try rewrite P; clear H
  end.

Lemma decode_group3 (a b c : byte) (rest : string) :
  b64decode (b64encode (a :: b :: c :: [])%list ++ rest)%string
  = option_map (fun tl => a :: b :: c :: tl) (b64decode rest).
Proof.
  pose proof (byte_val_range a) as Ha.
  pose proof (byte_val_range b) as Hb.
  pose proof (byte_val_range c) as Hc.
  cbn [b64encode String.append b64decode].
  remember (byte_val a) as x. remember (byte_val b) as y.
  remember (byte_val c) as z.
  assert (P3 : Ascii.eqb (b2a (z mod 64)) pad = false).
  { apply a2b_b2a. Z.div_mod_to_equations; lia. }
  rewrite P3.
  repeat sextet.
  replace (x / 4 * 4 + (x mod 4 * 16 + y / 16) / 16) with x
    by (Z.div_mod_to_equations; lia).
  replace ((x mod 4 * 16 + y / 16) mod 16 * 16 + (y mod 16 * 4 + z / 64) / 4)
    with y by (Z.div_mod_to_equations; lia).
  replace ((y mod 16 * 4 + z / 64) mod 4 * 64 + z mod 64) with z
    by (Z.div_mod_to_equations; lia).
  subst x y z. cbn [bytes_of fold_right].
  rewrite !val_byte_val.
  destruct (b64decode rest); reflexivity.
Qed.

Lemma b64encode_cons3 (a b c : byte) (rest : list byte) :
  b64encode (a :: b :: c :: rest)
  = (b64encode [a; b; c] ++ b64encode rest)%string.
Proof. reflexivity. Qed.

Lemma decode_group1 (a : byte) : b64decode (b64encode [a]) = Some [a].
Proof.
  pose proof (byte_val_range a) as Ha.
  cbn [b64encode b64decode].
  remember (byte_val a) as x.
  repeat sextet.
  change (Ascii.eqb pad pad) with true. cbn match.
  replace ((x mod 4 * 16) mod 16 =? 0) with true
    by (symmetry; apply Z.eqb_eq; Z.div_mod_to_equations; lia).
  replace (x / 4 * 4 + x mod 4 * 16 / 16) with x
    by (Z.div_mod_to_equations; lia).
  subst x. cbn [bytes_of fold_right]. rewrite val_byte_val. reflexivity.
Qed.

Lemma decode_group2 (a b : byte) : b64decode (b64encode [a; b]) = Some [a; b].
Proof.
  pose proof (byte_val_range a) as Ha.
  pose proof (byte_val_range b) as Hb.
  cbn [b64encode b64decode].
  remember (byte_val a) as x. remember (byte_val b) as y.
  assert (P2 : Ascii.eqb (b2a (y mod 16 * 4)) pad = false).
  { apply a2b_b2a. Z.div_mod_to_equations; lia. }
  repeat sextet.
  change (Ascii.eqb pad pad) with true. cbn match. rewrite ?P2.
  replace ((y mod 16 * 4) mod 4 =? 0) with true
    by (symmetry; apply Z.eqb_eq; Z.div_mod_to_equations; lia).
  replace (x / 4 * 4 + (x mod 4 * 16 + y / 16) / 16) with x
    by (Z.div_mod_to_equations; lia).
  replace ((x mod 4 * 16 + y / 16) mod 16 * 16 + y mod 16 * 4 / 4) with y
    by (Z.div_mod_to_equations; lia).
  subst x y. cbn [bytes_of fold_right]. rewrite !val_byte_val. reflexivity.
Qed.

Lemma b64decode_b64encode_upto (n : nat) :
  forall bs : list byte,
    (List.length bs <= n)%nat -> b64decode (b64encode bs) = Some bs.
Proof.
  induction n as [|n IH]; intros bs Hn.
  - destruct bs; [reflexivity | simpl in Hn; lia].
  - destruct bs as [|a [|b [|c rest]]].
    + reflexivity.
    + apply decode_group1.
    + apply decode_group2.
    + rewrite b64encode_cons3, decode_group3.
      rewrite IH by (simpl in Hn; lia). reflexivity.
Qed.

(** Decoding what [b64encode] produced gives the bytes back. *)
Theorem b64decode_b64encode (bs : list byte) :
  b64decode (b64encode bs) = Some bs.
Proof. apply b64decode_b64encode_upto with (n := List.length bs). lia. Qed.

Example b64encode_Man :
  b64encode (list_byte_of_string "Man") = "TWFu"%string
  /\ b64encode (list_byte_of_string "Ma") = "TWE="%string
  /\ b64encode (list_byte_of_string "M") = "TQ=="%string.
Proof. repeat split; vm_compute; reflexivity. Qed.

End Base64Facts.

(** ** Exceptions and loops *)

Module PyFacts.

Import Py.

Lemma isinstance_Exception (e : exn) : isinstance e Exception = true.
Proof. destruct e as [c s]; destruct c; reflexivity. Qed.

Lemma try_except_Exception {W A} (body : M W A) (h : exn -> M W A) (w : W) :
  try_except body [([Exception], h)] w
  = match body w with
    | (Ok a, w') => (Ok a, w')
    | (Raise e, w') => h e w'
    end.
Proof.
  unfold try_except. destruct (body w) as [[a|e] w']; [reflexivity|].
  cbn [find_clause existsb]. rewrite isinstance_Exception. reflexivity.
Qed.

Section Loops.

Variables (W A B : Type) (f : A -> result B).

Lemma for_each_lift_ok (xs : list A) (ys : list B) (w : W) :
  Forall2 (fun x y => f x = Ok y) xs ys ->
  for_each xs (fun x => lift (f x)) w = (Ok ys, w).
Proof.
  induction 1 as [|x y xs ys Hx _ IH]; [reflexivity|].
  cbn [for_each]. unfold bind at 1, lift at 1. rewrite Hx.
  unfold bind at 1. rewrite IH. reflexivity.
Qed.

Lemma for_each_lift_raise (pre post : list A) (bad : A) (e : exn) (w : W) :
  Forall (fun x => exists y, f x = Ok y) pre ->
  f bad = Raise e ->
  for_each (pre ++ bad :: post) (fun x => lift (f x)) w = (Raise e, w).
Proof.
  intros Hpre Hbad.
  induction Hpre as [|x pre [y Hx] _ IH]; cbn [app for_each].
  - unfold bind at 1, lift at 1. rewrite Hbad. reflexivity.
  - unfold bind at 1, lift at 1. rewrite Hx.
    unfold bind at 1. rewrite IH. reflexivity.
Qed.

(** A list with an element on which [f] raises has a first such element. *)
Lemma first_failure (xs : list A) :
  (exists x, In x xs /\ exists e, f x = Raise e) ->
  exists pre bad post e,
    xs = (pre ++ bad :: post)%list
    /\ Forall (fun x => exists y, f x = Ok y) pre
    /\ f bad = Raise e.
Proof.
  induction xs as [|x xs IH]; intros [x0 [Hin [e0 He0]]]; [destruct Hin|].
  destruct (f x) as [y|e] eqn:Hx.
  - destruct Hin as [<-|Hin]; [congruence|].
    destruct IH as (pre & bad & post & e & -> & Hpre & Hbad); [eauto|].
    exists (x :: pre), bad, post, e. repeat split; auto.
    constructor; eauto.
  - exists [], x, xs, e. repeat split; auto.
Qed.

End Loops.

End PyFacts.

(** ** The vector-store adapter *)

Module QdrantCollectionSpec.

Import Py QdrantCollection.
Local Open Scope string_scope.

Section Store.

Context {self : Declared} {builtins : Builtins}.
Variable PointStruct : Type.
Variable new_PointStruct : Z -> pyval -> pyval -> result PointStruct.
Variable Filter : Type.
Variable fault : list (request PointStruct) -> request PointStruct -> option exn.
Variable index : list (request PointStruct) -> request PointStruct -> list ScoredPoint.

Local Abbreviation world := (QdrantCollection.world PointStruct).
Local Abbreviation point_of := (QdrantCollection.point_of new_PointStruct).
Local Abbreviation add_records := (QdrantCollection.add_records new_PointStruct fault).
Local Abbreviation create_collection := (QdrantCollection.create_collection fault).
Local Abbreviation search := (QdrantCollection.search (Filter := Filter) fault index).

Lemma upserts_app (l1 l2 : list (request PointStruct)) :
  upserts (l1 ++ l2) = (upserts l1 + upserts l2)%nat.
Proof. unfold upserts. rewrite filter_app, length_app. reflexivity. Qed.

Lemma creations_app (l1 l2 : list (request PointStruct)) :
  creations (l1 ++ l2) = (creations l1 + creations l2)%nat.
Proof. unfold creations. rewrite filter_app, length_app. reflexivity. Qed.

Lemma int_raises (v : pyval) (e : exn) :
  refuses_by_ValueError builtins ->
  int v = Raise e -> coercion_or_lookup e = true.
Proof.
  intros Htext Hint.
  destruct v as [| b | z | f | s | l | d | c]; cbn in Hint;
    try discriminate; try (injection Hint as <-; reflexivity).
  - unfold float_trunc in Hint.
    destruct (Prim2SF f); try discriminate;
      injection Hint as <-; reflexivity.
  - unfold coercion_or_lookup. rewrite (Htext _ _ Hint). reflexivity.
Qed.

Lemma malformed_raises (rec : kwargs) :
  refuses_by_ValueError builtins ->
  malformed rec ->
  exists e, point_of rec = Raise e /\ coercion_or_lookup e = true.
Proof.
  intros Htext. unfold QdrantCollection.point_of, getitem.
  intros [Hid | [(v & e & Hid & Hint) | Hvec]].
  - rewrite Hid. eexists; split; reflexivity.
  - rewrite Hid, Hint. exists e. split; [reflexivity|].
    exact (int_raises v Htext Hint).
  - destruct (lookup "id" rec) as [v|]; [|eexists; split; reflexivity].
    destruct (int v) as [z|e] eqn:Hint.
    + rewrite Hvec. eexists; split; reflexivity.
    + exists e. split; [reflexivity|]. exact (int_raises v Htext Hint).
Qed.

Lemma add_records_built (records : list kwargs) (points : list PointStruct)
  (w : world) :
  records <> [] ->
  Forall2 (fun rec p => point_of rec = Ok p) records points ->
  add_records records w
  = (match fault (log w) (Upsert collection_name points) with
     | Some e =>
         Raise (mkExn RuntimeError
                  ("Failed to upsert records into '" ++ collection_name
                     ++ "': " ++ exn_str e))
     | None => Ok tt
     end,
     received (Upsert collection_name points) w).
Proof.
  intros Hne Hall. unfold QdrantCollection.add_records.
  destruct records as [|rec records]; [congruence|].
  unfold bind. rewrite (PyFacts.for_each_lift_ok _ _ Hall).
  rewrite PyFacts.try_except_Exception. unfold client_upsert.
  destruct (fault (log w) (Upsert collection_name points)); reflexivity.
Qed.

Lemma add_records_raises (pre post : list kwargs) (bad : kwargs) (e : exn)
  (w : world) :
  Forall (fun rec => exists p, point_of rec = Ok p) pre ->
  point_of bad = Raise e ->
  add_records (pre ++ bad :: post) w = (Raise e, w).
Proof.
  intros Hpre Hbad. unfold QdrantCollection.add_records.
  destruct (pre ++ bad :: post)%list as [|r rs] eqn:E.
  - destruct pre; discriminate.
  - rewrite <- E. unfold bind.
    erewrite PyFacts.for_each_lift_raise; [reflexivity | exact Hpre | exact Hbad].
Qed.

(** C2, as the code has it: the empty list is refused with [ValueError]
    and the store sees nothing; a non-empty list whose records all build a
    point sends exactly one [Upsert], holding all the points in order, and
    nothing else, whatever the store answers. *)
Theorem add_records_upsert_calls (records : list kwargs)
  (points : list PointStruct) (w : world) :
  add_records [] w
  = (Raise (mkExn ValueError "No records provided for upsert."), w)
  /\ (records <> [] ->
      Forall2 (fun rec p => point_of rec = Ok p) records points ->
      log (snd (add_records records w))
      = (log w ++ [Upsert collection_name points])%list
      /\ upserts (log (snd (add_records records w))) = S (upserts (log w))).
Proof.
  split; [reflexivity|].
  intros Hne Hall. rewrite (add_records_built w Hne Hall). cbn [snd received log].
  split; [reflexivity|].
  rewrite upserts_app. cbn. lia.
Qed.


Lemma search_run (query_vector : list float) (limit : Z)
  (filter : option Filter) (score_threshold : option float) (w : world) :
  let r := Search collection_name query_vector limit score_threshold in
  search query_vector limit filter score_threshold w
  = (match fault (log w) r with
     | Some e =>
         Raise (mkExn RuntimeError
                  ("Search in '" ++ collection_name ++ "' failed: "
                     ++ exn_str e))
     | None => Ok (map hit (index (log w) r))
     end,
     received r w).
Proof.
  intros r. unfold QdrantCollection.search, bind.
  rewrite PyFacts.try_except_Exception. unfold client_search. fold r.
  destruct (fault (log w) r); reflexivity.
Qed.

(** C3: the [filter] argument changes nothing: whatever it is, the same
    request reaches the store, without a filter in it, and the same result
    and the same log come back. *)
Theorem search_ignores_filter (query_vector : list float) (limit : Z)
  (filter1 filter2 : option Filter) (score_threshold : option float)
  (w : world) :
  search query_vector limit filter1 score_threshold w
  = search query_vector limit filter2 score_threshold w
  /\ log (snd (search query_vector limit filter1 score_threshold w))
     = (log w ++ [Search collection_name query_vector limit score_threshold])%list.
Proof.
  split; [reflexivity|]. rewrite search_run. reflexivity.
Qed.

(** C4: over a store that honours the request, a search that succeeds
    returns one [{"id", "payload", "score"}] record per hit, in the order of
    the store: no score is below the next one, and none is below the
    threshold when one was given. *)
Theorem search_sorted_above_threshold (query_vector : list float) (limit : Z)
  (filter : option Filter) (score_threshold : option float)
  (w w' : world) (out : list pyval) :
  honours index ->
  search query_vector limit filter score_threshold w = (Ok out, w') ->
  exists hits : list ScoredPoint,
    out = map (fun p => PyDict [("id", sp_id p);
                                ("payload", sp_payload p);
                                ("score", PyFloat (sp_score p))]) hits
    /\ non_increasing (map sp_score hits) = true
    /\ forall t, score_threshold = Some t ->
                 Forall (fun p => PrimFloat.leb t (sp_score p) = true) hits.
Proof.
  intros Hstore Hrun. rewrite search_run in Hrun.
  destruct (fault (log w) _); [discriminate|].
  injection Hrun as <- _.
  eexists. split; [reflexivity|]. apply Hstore.
Qed.

Lemma listed_iff (name : string) (names : list string) :
  existsb (String.eqb name) names = true <-> In name names.
Proof.
  rewrite existsb_exists. split.
  - intros (x & Hin & Heq). apply String.eqb_eq in Heq. subst. exact Hin.
  - intros Hin. exists name. split; [exact Hin | apply String.eqb_refl].
Qed.

Lemma create_collection_run (w : world) :
  create_collection w
  = match fault (log w) GetCollections with
    | Some e => (Raise (creation_failed e), received GetCollections w)
    | None =>
        if existsb (String.eqb collection_name) (collections w)
        then (Ok tt, received GetCollections w)
        else
          let r := CreateCollection collection_name declared_config in
          match fault (log w ++ [GetCollections]) r with
          | Some e =>
              (Raise (creation_failed e),
               received r (received GetCollections w))
          | None =>
              (Ok tt,
               World (log w ++ [GetCollections] ++ [r])
                     (collections w ++ [collection_name]))
          end
    end.
Proof.
  unfold QdrantCollection.create_collection.
  rewrite PyFacts.try_except_Exception.
  unfold bind, client_get_collections.
  destruct (fault (log w) GetCollections) as [e|]; [reflexivity|].
  destruct (existsb (String.eqb collection_name) (collections w)) eqn:Hin;
    [reflexivity|].
  unfold client_create_collection. cbn [received log collections].
  fold declared_config.
  destruct (fault (log w ++ [GetCollections])
              (CreateCollection collection_name declared_config));
    [reflexivity|].
  rewrite Hin. rewrite <- app_assoc. reflexivity.
Qed.

(** C5, as the code has it: a call lists the collections first and asks
    the store to create the collection only when the listing succeeded and
    does not hold the name; and when the first of two calls in a row returns
    without an error, the two calls together ask for at most one creation. *)
Theorem create_collection_twice (w w1 w2 : world) (r2 : result unit) :
  (log (snd (create_collection w)) = (log w ++ [GetCollections])%list
   \/ (~ In collection_name (collections w)
       /\ fault (log w) GetCollections = None
       /\ log (snd (create_collection w))
          = (log w ++ [GetCollections;
                       CreateCollection collection_name declared_config])%list))
  /\ (create_collection w = (Ok tt, w1) ->
      create_collection w1 = (r2, w2) ->
      (creations (log w2) <= creations (log w) + 1)%nat).
Proof.
  split.
  - rewrite create_collection_run.
    destruct (fault (log w) GetCollections) as [e|] eqn:Hl; [left; reflexivity|].
    destruct (existsb (String.eqb collection_name) (collections w)) eqn:Hin;
      [left; reflexivity|].
    right. split.
    { intros H. apply listed_iff in H. congruence. }
    split; [reflexivity|].
    cbv zeta.
    destruct (fault (log w ++ [GetCollections]) _); cbn [snd received log];
      rewrite <- ?app_assoc; reflexivity.
  - rewrite !create_collection_run.
    destruct (fault (log w) GetCollections) as [e|]; [discriminate|].
    destruct (existsb (String.eqb collection_name) (collections w)) eqn:Hin.
    + intros H1. injection H1 as <-. cbn [received log collections].
      rewrite Hin.
      destruct (fault (log w ++ [GetCollections]) GetCollections);
        intros H2; injection H2 as <- <-; cbn [received log];
        rewrite !creations_app; cbn; lia.
    + cbv zeta.
      destruct (fault (log w ++ [GetCollections]) _); [discriminate|].
      intros H1. injection H1 as <-. cbn [log collections].
      assert (Hnow : existsb (String.eqb collection_name)
                       (collections w ++ [collection_name]) = true).
      { apply listed_iff, in_or_app. right. left. reflexivity. }
      rewrite Hnow.
      destruct (fault _ GetCollections);
        intros H2; injection H2 as <- <-; cbn [received log];
        rewrite !creations_app; cbn; lia.
Qed.

End Store.

(** *** The properties at work on a concrete store *)

Import Scenarios.

#[local] Existing Instance AsciiBuiltins.builtins.

Lemma ascii_refuses_by_ValueError : refuses_by_ValueError AsciiBuiltins.builtins.
Proof.
  intros s e H. cbn in H. unfold AsciiBuiltins.int_of_text in H.
  destruct (AsciiBuiltins.parse_int s); [discriminate|].
  injection H as <-. reflexivity.
Qed.

Local Abbreviation add_records :=
  (QdrantCollection.add_records (self := books) new_Point).
Local Abbreviation create_collection :=
  (QdrantCollection.create_collection (self := books) (PointStruct := Point)).
Local Abbreviation search :=
  (QdrantCollection.search (self := books) (PointStruct := Point)
     (Filter := unit)).

(** A record without ["id"] in a non-empty list: [KeyError], and no
    [Upsert] at all, where C2 as written promises exactly one. *)
Lemma add_records_one_upsert_counterexample :
  ~ (forall records : list kwargs,
        records <> [] ->
        upserts (log (snd (add_records reliable records empty_store))) = 1%nat).
Proof.
  intros H. specialize (H [record_without_id]).
  assert (Hne : [record_without_id] <> []) by discriminate.
  specialize (H Hne). vm_compute in H. discriminate H.
Qed.

Lemma add_records_upsert_calls_witness :
  let records := [good_record] in
  let points :=
    [(7%Z, PyList [PyFloat 0.5%float; PyFloat 0.25%float], PyDict [])] in
  records <> []
  /\ Forall2 (fun rec p => QdrantCollection.point_of new_Point rec = Ok p)
       records points
  /\ log (snd (add_records reliable records empty_store))
     = (log empty_store ++ [Upsert "books" points])%list
  /\ upserts (log (snd (add_records reliable records empty_store)))
     = S (upserts (log empty_store)).
Proof.
  intros records points.
  assert (Hne : records <> []) by discriminate.
  assert (Hall : Forall2
                   (fun rec p => QdrantCollection.point_of new_Point rec = Ok p)
                   records points)
    by (repeat constructor).
  split; [exact Hne|]. split; [exact Hall|].
  exact (proj2 (@add_records_upsert_calls books AsciiBuiltins.builtins Point
                  new_Point reliable records points empty_store) Hne Hall).
Defined.



Lemma two_hits_honours : honours two_hits.
Proof.
  intros l name qv limit [t|]; cbn.
  - destruct (PrimFloat.leb t 0.75%float) eqn:H1;
      destruct (PrimFloat.leb t 0.5%float) eqn:H2; cbn;
      (split; [reflexivity|]);
      intros t' Ht; injection Ht as <-; repeat constructor; assumption.
  - split; [reflexivity|]. intros t' Ht. discriminate Ht.
Qed.

Lemma search_sorted_above_threshold_witness :
  let out := [PyDict [("id", PyInt 1); ("payload", PyDict []);
                      ("score", PyFloat 0.75%float)]] in
  let w' := received (Search "books" [1%float; 0%float] 10
                        (Some 0.625%float)) empty_store in
  honours two_hits
  /\ search reliable two_hits [1%float; 0%float] 10%Z None
       (Some 0.625%float) empty_store = (Ok out, w')
  /\ exists hits : list ScoredPoint,
       out = map (fun p => PyDict [("id", sp_id p);
                                   ("payload", sp_payload p);
                                   ("score", PyFloat (sp_score p))]) hits
       /\ non_increasing (map sp_score hits) = true
       /\ forall t, Some 0.625%float = Some t ->
                    Forall (fun p => PrimFloat.leb t (sp_score p) = true) hits.
Proof.
  intros out w'.
  assert (Hrun : search reliable two_hits [1%float; 0%float] 10%Z None
                   (Some 0.625%float) empty_store = (Ok out, w'))
    by (vm_compute; reflexivity).
  split; [exact two_hits_honours|]. split; [exact Hrun|].
  exact (@search_sorted_above_threshold books Point unit reliable two_hits
           [1%float; 0%float] 10%Z None (Some 0.625%float) empty_store w' out
           two_hits_honours Hrun).
Defined.

(** A store that refuses every creation: both calls list, find nothing and
    ask for the creation, two creation calls where C5 as written allows
    one. *)
Lemma create_collection_twice_counterexample :
  let w1 := snd (create_collection creation_refused empty_store) in
  let w2 := snd (create_collection creation_refused w1) in
  creations (log w2) = 2%nat
  /\ ~ (creations (log w2) <= creations (log empty_store) + 1)%nat.
Proof.
  intros w1 w2.
  assert (H : creations (log w2) = 2%nat) by (vm_compute; reflexivity).
  split; [exact H|]. rewrite H. cbn. lia.
Qed.

Lemma create_collection_twice_witness :
  let w1 := World (PointStruct := Point)
              [GetCollections;
               CreateCollection "books" {| size := 2; vp_distance := COSINE |}]
              ["books"] in
  let w2 := received GetCollections w1 in
  create_collection reliable empty_store = (Ok tt, w1)
  /\ create_collection reliable w1 = (Ok tt, w2)
  /\ (creations (log w2) <= creations (log empty_store) + 1)%nat.
Proof.
  intros w1 w2.
  assert (H1 : create_collection reliable empty_store = (Ok tt, w1))
    by (vm_compute; reflexivity).
  assert (H2 : create_collection reliable w1 = (Ok tt, w2))
    by (vm_compute; reflexivity).
  split; [exact H1|]. split; [exact H2|].
  exact (proj2 (@create_collection_twice books Point reliable
                  empty_store w1 w2 (Ok tt)) H1 H2).
Defined.

End QdrantCollectionSpec.

(** ** The chat-completion adapters *)

Module ChatSpec.

Import Py OpenAI Pydantic.
Local Open Scope string_scope.

Lemma fresh_not_repeated (explicit kw : kwargs) :
  fresh (map fst explicit) kw -> repeated_keyword explicit kw = None.
Proof.
  unfold fresh. induction kw as [|[k v] kw IH]; intros H; [reflexivity|].
  cbn [map fst] in H. inversion H as [|? ? Hk Hrest]; subst.
  cbn [repeated_keyword].
  destruct (lookup k explicit) as [x|] eqn:E; [|auto].
  exfalso. apply Hk. clear - E.
  induction explicit as [|[k' v'] explicit IH]; [discriminate|].
  cbn [lookup] in E. cbn [map fst In].
  destruct (String.eqb k k') eqn:Ek.
  - left. symmetry. apply String.eqb_eq. exact Ek.
  - right. auto.
Qed.

Lemma skipn_own_length {A} (l new : list A) :
  skipn (List.length l) (l ++ new) = new.
Proof. induction l; [reflexivity | assumption]. Qed.

Lemma first_choice_raises (response : ChatCompletion) (e : exn) :
  first_choice_content response = Raise e -> exn_cls e = IndexError.
Proof.
  unfold first_choice_content, first.
  destruct (choices response); [|discriminate].
  intros H. injection H as <-. reflexivity.
Qed.

Section Endpoint.

Context {builtins : Builtins}.
Variable model_name : string.
Variable endpoint : trace -> kwargs -> result ChatCompletion.
Variable files : string -> result (list byte).

Local Abbreviation local_generate :=
  (LocalOpenaiClient.generate model_name endpoint).
Local Abbreviation generate_json :=
  (LocalOpenaiClient.generate_json model_name endpoint).
Local Abbreviation generate_with_images :=
  (LocalOpenaiClient.generate_with_images model_name endpoint files).
Local Abbreviation openai_generate :=
  (OpenaiClient.generate model_name endpoint).

(** The call of the endpoint, with or without a repeated keyword. *)
Lemma call_kw_create (explicit kw : kwargs) (t : trace) :
  call_kw create_name (chat_completions_create endpoint) explicit kw t
  = match repeated_keyword explicit kw with
    | Some k =>
        (Raise (mkExn TypeError
                  (create_name ++ "() got multiple values for keyword argument '"
                     ++ k ++ "'")),
         t)
    | None =>
        (endpoint t (explicit ++ kw)%list,
         (t ++ [Create (explicit ++ kw)%list])%list)
    end.
Proof.
  unfold call_kw. destruct (repeated_keyword explicit kw); reflexivity.
Qed.

Lemma index_error_handled {W A} (e : exn) (h : exn -> M W A)
  (classes : list exn_class) :
  exn_cls e = IndexError ->
  In IndexError classes ->
  find_clause e [(classes, h)] = Some h.
Proof.
  intros He Hin. cbn [find_clause].
  replace (existsb (isinstance e) classes) with true; [reflexivity|].
  symmetry. apply existsb_exists. exists IndexError. split; [exact Hin|].
  unfold isinstance. rewrite He. reflexivity.
Qed.

(** [generate], run: the keywords are checked, the endpoint is asked once,
    and the first choice is read. *)
Lemma local_generate_run (prompt : string) (max_tokens : Z)
  (temperature : float) (system_prompt : string) (kw : kwargs) (t : trace) :
  let explicit :=
    LocalOpenaiClient.chat_keywords model_name
      (LocalOpenaiClient.opening system_prompt
         ++ [LocalOpenaiClient.user_message
               (PyList [LocalOpenaiClient.text_part prompt])])%list
      max_tokens temperature in
  local_generate prompt max_tokens temperature system_prompt kw t
  = match repeated_keyword explicit kw with
    | Some k =>
        (Raise (mkExn RuntimeError
                  ("server generate request failed: " ++ create_name
                     ++ "() got multiple values for keyword argument '"
                     ++ k ++ "'")),
         t)
    | None =>
        (match endpoint t (explicit ++ kw)%list with
         | Raise e =>
             Raise (mkExn RuntimeError
                      ("server generate request failed: " ++ exn_str e))
         | Ok response =>
             match first_choice_content response with
             | Ok text => Ok text
             | Raise e =>
                 Raise (mkExn RuntimeError
                          ("Failed to parse server generate response: "
                             ++ exn_str e))
             end
         end,
         (t ++ [Create (explicit ++ kw)%list])%list)
    end.
Proof.
  intros explicit. unfold LocalOpenaiClient.generate, bind.
  rewrite PyFacts.try_except_Exception, call_kw_create.
  fold (LocalOpenaiClient.chat_keywords model_name
          (LocalOpenaiClient.opening system_prompt
             ++ [LocalOpenaiClient.user_message
                   (PyList [LocalOpenaiClient.text_part prompt])])%list
          max_tokens temperature).
  fold explicit.
  destruct (repeated_keyword explicit kw); [reflexivity|].
  destruct (endpoint t (explicit ++ kw)%list) as [response|e]; [|reflexivity].
  unfold try_except, lift.
  destruct (first_choice_content response) as [text|e] eqn:E; [reflexivity|].
  rewrite index_error_handled;
    [reflexivity | exact (first_choice_raises _ E) | cbn; auto].
Qed.

Lemma openai_generate_run (prompt system_prompt : string) (kw : kwargs)
  (t : trace) :
  let explicit :=
    OpenaiClient.chat_keywords model_name
      (LocalOpenaiClient.opening system_prompt
         ++ [LocalOpenaiClient.user_message
               (PyList [LocalOpenaiClient.text_part prompt])])%list in
  openai_generate prompt system_prompt kw t
  = match repeated_keyword explicit kw with
    | Some k =>
        (Raise (mkExn RuntimeError
                  ("OpenAi generate request failed: " ++ create_name
                     ++ "() got multiple values for keyword argument '"
                     ++ k ++ "'")),
         (t ++ [Sleep 60])%list)
    | None =>
        match endpoint t (explicit ++ kw)%list with
        | Raise e =>
            (Raise (mkExn RuntimeError
                      ("OpenAi generate request failed: " ++ exn_str e)),
             (t ++ [Create (explicit ++ kw)%list; Sleep 60])%list)
        | Ok response =>
            (match first_choice_content response with
             | Ok text => Ok text
             | Raise e =>
                 Raise (mkExn RuntimeError
                          ("Failed to parse OpenAI generate response: "
                             ++ exn_str e))
             end,
             (t ++ [Create (explicit ++ kw)%list])%list)
        end
    end.
Proof.
  intros explicit. unfold OpenaiClient.generate, bind.
  rewrite PyFacts.try_except_Exception, call_kw_create.
  fold (OpenaiClient.chat_keywords model_name
          (LocalOpenaiClient.opening system_prompt
             ++ [LocalOpenaiClient.user_message
                   (PyList [LocalOpenaiClient.text_part prompt])])%list).
  fold explicit.
  destruct (repeated_keyword explicit kw); [reflexivity|].
  destruct (endpoint t (explicit ++ kw)%list) as [response|e].
  - unfold try_except, lift.
    destruct (first_choice_content response) as [text|e] eqn:E; [reflexivity|].
    rewrite index_error_handled;
      [reflexivity | exact (first_choice_raises _ E) | cbn; auto].
  - unfold sleep, raise. rewrite <- app_assoc. reflexivity.
Qed.

Lemma opening_system (system_prompt : string) :
  system_prompt <> "" ->
  LocalOpenaiClient.opening system_prompt
  = [LocalOpenaiClient.system_message system_prompt].
Proof. destruct system_prompt; [congruence | reflexivity]. Qed.

Lemma added_nothing {A} (run : M trace A) (t : trace) :
  snd (run t) = t -> added run t = [].
Proof. unfold added. intros ->. apply skipn_all. Qed.

Lemma added_new {A} (run : M trace A) (t new : trace) :
  snd (run t) = (t ++ new)%list -> added run t = new.
Proof. unfold added. intros ->. apply skipn_own_length. Qed.

(** The requests of one run of the local [generate]: none when a keyword
    is repeated, else one, with the message list built from the prompts. *)
Lemma local_generate_issued (prompt : string) (max_tokens : Z)
  (temperature : float) (system_prompt : string) (kw : kwargs) (t : trace) :
  let explicit :=
    LocalOpenaiClient.chat_keywords model_name
      (LocalOpenaiClient.opening system_prompt
         ++ [LocalOpenaiClient.user_message
               (PyList [LocalOpenaiClient.text_part prompt])])%list
      max_tokens temperature in
  issued (local_generate prompt max_tokens temperature system_prompt kw) t
  = match repeated_keyword explicit kw with
    | Some _ => []
    | None => [(explicit ++ kw)%list]
    end.
Proof.
  intros explicit. unfold issued.
  pose proof (local_generate_run prompt max_tokens temperature system_prompt
                kw t) as Hrun.
  cbv zeta in Hrun. fold explicit in Hrun.
  destruct (repeated_keyword explicit kw).
  - rewrite added_nothing; [reflexivity | rewrite Hrun; reflexivity].
  - erewrite added_new; [|rewrite Hrun; reflexivity]. reflexivity.
Qed.

Lemma openai_generate_issued (prompt system_prompt : string) (kw : kwargs)
  (t : trace) :
  let explicit :=
    OpenaiClient.chat_keywords model_name
      (LocalOpenaiClient.opening system_prompt
         ++ [LocalOpenaiClient.user_message
               (PyList [LocalOpenaiClient.text_part prompt])])%list in
  issued (openai_generate prompt system_prompt kw) t
  = match repeated_keyword explicit kw with
    | Some _ => []
    | None => [(explicit ++ kw)%list]
    end.
Proof.
  intros explicit. unfold issued.
  pose proof (openai_generate_run prompt system_prompt kw t) as Hrun.
  cbv zeta in Hrun. fold explicit in Hrun.
  destruct (repeated_keyword explicit kw).
  - erewrite added_new; [|rewrite Hrun; reflexivity]. reflexivity.
  - destruct (endpoint t (explicit ++ kw)%list);
      (erewrite added_new; [|rewrite Hrun; reflexivity]); reflexivity.
Qed.

(** C6: with a system prompt, every request of [generate], in either
    adapter, carries exactly two messages: the system message with the given
    text, then the user message whose content is the prompt as one text
    part; with the empty system prompt it carries the user message alone.
    One request is sent whenever the extra keywords repeat none of those
    [generate] passes itself. *)
Theorem generate_messages (prompt : string) (max_tokens : Z)
  (temperature : float) (system_prompt : string) (kw kw' : kwargs)
  (t : trace) :
  system_prompt <> "" ->
  let user :=
    PyDict [("role", PyStr "user");
            ("content", PyList [PyDict [("type", PyStr "text");
                                        ("text", PyStr prompt)]])] in
  let system :=
    PyDict [("role", PyStr "system"); ("content", PyStr system_prompt)] in
  (Forall (carries [system; user])
     (issued (local_generate prompt max_tokens temperature system_prompt kw) t)
   /\ Forall (carries [user])
        (issued (local_generate prompt max_tokens temperature "" kw) t)
   /\ (fresh ["model"; "messages"; "max_tokens"; "temperature"] kw ->
       List.length
         (issued (local_generate prompt max_tokens temperature system_prompt kw) t)
       = 1%nat
       /\ List.length
            (issued (local_generate prompt max_tokens temperature "" kw) t)
          = 1%nat))
  /\ (Forall (carries [system; user])
        (issued (openai_generate prompt system_prompt kw') t)
      /\ Forall (carries [user]) (issued (openai_generate prompt "" kw') t)
      /\ (fresh ["model"; "messages"; "temperature"] kw' ->
          List.length (issued (openai_generate prompt system_prompt kw') t)
          = 1%nat
          /\ List.length (issued (openai_generate prompt "" kw') t) = 1%nat)).
Proof.
  intros Hsp user system.
  rewrite !local_generate_issued, !openai_generate_issued. cbv zeta.
  rewrite (opening_system Hsp).
  repeat split.
  - destruct (repeated_keyword _ kw); repeat constructor.
  - destruct (repeated_keyword _ kw); repeat constructor.
  - rewrite fresh_not_repeated; [reflexivity | assumption].
  - rewrite fresh_not_repeated; [reflexivity | assumption].
  - destruct (repeated_keyword _ kw'); repeat constructor.
  - destruct (repeated_keyword _ kw'); repeat constructor.
  - rewrite fresh_not_repeated; [reflexivity | assumption].
  - rewrite fresh_not_repeated; [reflexivity | assumption].
Qed.

(** C8: when the endpoint fails the request of the OpenAI adapter's
    [generate], the run asks it once and never again: the trace grows by
    that one request and one pause of 60 seconds, and the result is a
    [RuntimeError], whatever the endpoint would answer to a later request. *)
Theorem generate_fails_once (prompt system_prompt : string) (kw : kwargs)
  (t : trace) (e : exn) :
  let request :=
    ([("model", PyStr model_name);
      ("messages",
       PyList (LocalOpenaiClient.opening system_prompt
                 ++ [LocalOpenaiClient.user_message
                       (PyList [LocalOpenaiClient.text_part prompt])]));
      ("temperature", PyFloat 0%float)] ++ kw)%list in
  fresh ["model"; "messages"; "temperature"] kw ->
  endpoint t request = Raise e ->
  openai_generate prompt system_prompt kw t
  = (Raise (mkExn RuntimeError
              ("OpenAi generate request failed: " ++ exn_str e)),
     (t ++ [Create request; Sleep 60])%list)
  /\ requests (added (openai_generate prompt system_prompt kw) t) = [request].
Proof.
  intros request Hfresh Hfail.
  assert (Hrun : openai_generate prompt system_prompt kw t
                 = (Raise (mkExn RuntimeError
                             ("OpenAi generate request failed: " ++ exn_str e)),
                    (t ++ [Create request; Sleep 60])%list)).
  { rewrite openai_generate_run. cbv zeta.
    rewrite fresh_not_repeated by exact Hfresh.
    unfold OpenaiClient.chat_keywords. fold request. rewrite Hfail.
    reflexivity. }
  split; [exact Hrun|].
  erewrite added_new; [|rewrite Hrun; reflexivity]. reflexivity.
Qed.

(** [generate_json], run: the call, the first choice, the validation, the
    serialisation. *)
Lemma generate_json_run (response_model : BaseModel) (prompt : string)
  (max_tokens : Z) (temperature : float) (system_prompt : string)
  (kw : kwargs) (t : trace) :
  generate_json prompt max_tokens response_model temperature system_prompt kw t
  = match LocalOpenaiClient.json_completion model_name endpoint prompt
            max_tokens temperature system_prompt kw t with
    | (Raise e, t') =>
        (Raise (mkExn RuntimeError
                  ("server generate_json request failed: " ++ exn_str e)),
         t')
    | (Ok response, t') =>
        (match first_choice_content response with
         | Raise _ =>
             Raise (mkExn RuntimeError
                      "Failed to retrieve content from model response")
         | Ok json_response =>
             match model_validate_json json_response with
             | Ok parsed =>
                 match model_dump_json parsed with
                 | Ok dumped => Ok (PyStr dumped)
                 | Raise se => Raise (LocalOpenaiClient.validation_handled se)
                 end
             | Raise ve => Raise (LocalOpenaiClient.validation_handled ve)
             end
         end,
         t')
    end.
Proof.
  unfold LocalOpenaiClient.generate_json, LocalOpenaiClient.json_completion,
    LocalOpenaiClient.chat_keywords, LocalOpenaiClient.validation_handled.
  unfold bind at 1. rewrite PyFacts.try_except_Exception.
  destruct (call_kw _ _ _ kw t) as [[response|e] t']; [|reflexivity].
  unfold bind at 1. unfold try_except at 1, lift at 1.
  destruct (first_choice_content response) as [json_response|e] eqn:E.
  - unfold try_except, bind, lift, ret.
    destruct (model_validate_json json_response) as [parsed|ve].
    + destruct (model_dump_json parsed) as [dumped|se]; [reflexivity|].
      cbn [find_clause existsb].
      destruct (isinstance se ValidationError); [reflexivity|].
      destruct (isinstance se JSONDecodeError); reflexivity.
    + cbn [find_clause existsb].
      destruct (isinstance ve ValidationError); [reflexivity|].
      destruct (isinstance ve JSONDecodeError); reflexivity.
  - rewrite index_error_handled;
      [reflexivity | exact (first_choice_raises _ E) | cbn; auto].
Qed.

(** Whatever the model, what [generate_json] returns is a [str], the JSON
    text of the validated instance, never the dict of its fields. *)
Lemma generate_json_returns_str (response_model : BaseModel) (prompt : string)
  (max_tokens : Z) (temperature : float) (system_prompt : string)
  (kw : kwargs) (t : trace) (v : pyval) :
  fst (generate_json prompt max_tokens response_model temperature
         system_prompt kw t) = Ok v ->
  exists parsed dumped,
    model_dump_json parsed = Ok dumped
    /\ v = PyStr dumped
    /\ v <> PyDict (model_dump parsed).
Proof.
  rewrite generate_json_run.
  destruct (LocalOpenaiClient.json_completion _ _ _ _ _ _ kw t)
    as [[response|e] t']; [|discriminate].
  cbn [fst].
  destruct (first_choice_content response) as [json_response|e]; [|discriminate].
  destruct (model_validate_json json_response) as [parsed|ve]; [|discriminate].
  destruct (model_dump_json parsed) as [dumped|se] eqn:D; [|discriminate].
  intros H. injection H as <-. exists parsed, dumped.
  split; [exact D|]. split; [reflexivity|discriminate].
Qed.

Lemma validation_handled_class (e : exn) :
  isinstance (LocalOpenaiClient.validation_handled e) ValueError
  = isinstance e ValueError.
Proof. destruct e as [c s]. destruct c; reflexivity. Qed.

Lemma lookup_absent (k : string) (d : kwargs) :
  lookup k d = None -> ~ In k (map fst d).
Proof.
  induction d as [|[k' v] d IH]; intros H; [intros []|].
  cbn [lookup] in H. cbn [map fst In].
  destruct (String.eqb k k') eqn:E; [discriminate|].
  intros [Hk|Hin]; [|exact (IH H Hin)].
  subst k'. rewrite String.eqb_refl in E. discriminate E.
Qed.

Lemma not_repeated_fresh (explicit kw : kwargs) :
  repeated_keyword explicit kw = None -> fresh (map fst explicit) kw.
Proof.
  unfold fresh. induction kw as [|[k v] kw IH]; intros H; [constructor|].
  cbn [repeated_keyword] in H. cbn [map fst].
  destruct (lookup k explicit) eqn:E; [discriminate|].
  constructor; [exact (lookup_absent _ _ E) | exact (IH H)].
Qed.


(** [_encode_image_to_data_uri] called as a plain function, with the path
    as its one argument: the data URI of the file, whose part after the
    prefix decodes to the bytes of the file. *)
Lemma encode_image_called_directly (path : string) (img : list byte)
  (t : trace) :
  files path = Ok img ->
  call (LocalOpenaiClient._encode_image_to_data_uri files) [PyStr path] t
  = (Ok ("data:image/jpeg;base64," ++ Base64.b64encode img), t)
  /\ Base64.b64decode (Base64.b64encode img) = Some img.
Proof.
  intros Hfile. split; [|apply Base64Facts.b64decode_b64encode].
  unfold call. cbn [List.length params body Nat.eqb
                      LocalOpenaiClient._encode_image_to_data_uri].
  rewrite PyFacts.try_except_Exception.
  unfold bind, lift, LocalOpenaiClient.read_binary. rewrite Hfile.
  reflexivity.
Qed.

(** C9, where the code departs from it: [generate_with_images] calls
    [_encode_image_to_data_uri] as a method of the client, so the function,
    which has one parameter, receives two arguments.  With at least one
    image the run raises a [RuntimeError] before a file is read or a request
    is sent. *)
Theorem generate_with_images_raises (prompt img : string)
  (rest : list string) (system_prompt : string) (max_tokens : Z)
  (temperature : float) (t : trace) :
  generate_with_images prompt (Some (img :: rest)) system_prompt max_tokens
    temperature t
  = (Raise (mkExn RuntimeError
              ("server generate_with_images request failed: "
                 ++ "LocalOpenaiClient._encode_image_to_data_uri() "
                 ++ "takes 1 positional argument but 2 were given")),
     t)
  /\ issued (generate_with_images prompt (Some (img :: rest)) system_prompt
               max_tokens temperature) t = [].
Proof.
  assert (Hrun : generate_with_images prompt (Some (img :: rest))
                   system_prompt max_tokens temperature t
                 = (Raise (mkExn RuntimeError
                             ("server generate_with_images request failed: "
                                ++ "LocalOpenaiClient._encode_image_to_data_uri() "
                                ++ "takes 1 positional argument but 2 were given")),
                    t)).
  { unfold LocalOpenaiClient.generate_with_images. unfold bind at 1.
    rewrite PyFacts.try_except_Exception. reflexivity. }
  split; [exact Hrun|].
  unfold issued. rewrite added_nothing; [reflexivity | rewrite Hrun; reflexivity].
Qed.

(** Without images the request goes out, its user message holding the text
    part alone. *)
Lemma generate_with_images_text_only (prompt system_prompt : string)
  (max_tokens : Z) (temperature : float) (t : trace) :
  issued (generate_with_images prompt None system_prompt max_tokens
            temperature) t
  = [LocalOpenaiClient.chat_keywords model_name
       (LocalOpenaiClient.opening system_prompt
          ++ [LocalOpenaiClient.user_message
                (PyList [LocalOpenaiClient.text_part prompt])])%list
       max_tokens temperature].
Proof.
  set (request := LocalOpenaiClient.chat_keywords model_name _ _ _).
  assert (Hs : snd (generate_with_images prompt None system_prompt max_tokens
                      temperature t) = (t ++ [Create request])%list).
  { unfold LocalOpenaiClient.generate_with_images. unfold bind at 1.
    rewrite PyFacts.try_except_Exception.
    cbn [for_each]. unfold bind at 1, ret at 1.
    unfold chat_completions_create.
    fold (LocalOpenaiClient.chat_keywords model_name
            (LocalOpenaiClient.opening system_prompt
               ++ [LocalOpenaiClient.user_message
                     (PyList ([LocalOpenaiClient.text_part prompt] ++ []))])%list
            max_tokens temperature).
    cbn [app]. fold request.
    destruct (endpoint t request) as [response|e]; [|reflexivity].
    unfold try_except, first.
    destruct (choices response) as [|choice others]; [reflexivity|].
    destruct (content (message choice)); reflexivity. }
  unfold issued. erewrite added_new; [|exact Hs]. reflexivity.
Qed.

End Endpoint.

(** *** The properties at work on concrete endpoints *)

Import Scenarios.

Lemma model_a_accepts_a1 :
  model_validate_json (BaseModel := ModelA.A) (PyStr json_a1) = Ok 1%Z.
Proof. vm_compute. reflexivity. Qed.

Lemma model_a_reports_by_validation_error :
  reports_by_validation_error ModelA.A.
Proof.
  intros data e. cbn [model_validate_json ModelA.A]. unfold ModelA.validate_json.
  destruct data; try (intros H; injection H as <-; left; reflexivity).
  destruct (Json.parse s) as [[| | | | | |members]|];
    try (intros H; injection H as <-; left; reflexivity).
  destruct (ModelA.last_member "a" members) as [[| | | | | |]|];
    try (intros H; injection H as <-; left; reflexivity).
  discriminate.
Qed.

(** C1, where the code departs from it: the endpoint answers with the text
    [{"a": 1}] and the model has the one integer field [a]; [generate_json]
    returns the JSON text of the validated instance, a [str], and not the
    object [{"a": 1}]. *)
Theorem generate_json_a1_is_text (model_name prompt : string)
  (max_tokens : Z) (temperature : float) (system_prompt : string)
  (t : trace) :
  let outcome :=
    fst (LocalOpenaiClient.generate_json model_name (answering json_a1)
           prompt max_tokens ModelA.A temperature system_prompt [] t) in
  outcome = Ok (PyStr ("{" ++ ModelA.quoted "a" ++ ":1}"))
  /\ outcome <> Ok (PyDict [("a", PyInt 1)]).
Proof.
  intros outcome.
  assert (H : outcome = Ok (PyStr ("{" ++ ModelA.quoted "a" ++ ":1}"))).
  { subst outcome. rewrite generate_json_run.
    unfold LocalOpenaiClient.json_completion. rewrite call_kw_create.
    cbn [repeated_keyword answering fst].
    change (first_choice_content (reply json_a1)) with (Ok (PyStr json_a1)).
    cbv beta iota. rewrite model_a_accepts_a1. reflexivity. }
  split; [exact H|]. rewrite H. discriminate.
Qed.

Example generate_json_not_json :
  fst (LocalOpenaiClient.generate_json "qwen" (answering "not json")
         "hello" 10 ModelA.A 0%float "" [] [])
  = Raise (mkExn ValueError
             "Invalid JSON structure: Invalid JSON [type=json_invalid]").
Proof. vm_compute. reflexivity. Qed.



Lemma generate_messages_witness :
  let user :=
    PyDict [("role", PyStr "user");
            ("content", PyList [PyDict [("type", PyStr "text");
                                        ("text", PyStr "hello")]])] in
  let system :=
    PyDict [("role", PyStr "system"); ("content", PyStr "be terse")] in
  let kw' := [("max_tokens", PyInt 10)] in
  let local_run := LocalOpenaiClient.generate "qwen" (answering "hi") "hello"
                     10 0%float in
  let openai_run := OpenaiClient.generate "gpt" (answering "hi") "hello" in
  "be terse" <> ""
  /\ fresh ["model"; "messages"; "max_tokens"; "temperature"] []
  /\ fresh ["model"; "messages"; "temperature"] kw'
  /\ (Forall (carries [system; user]) (issued (local_run "be terse" []) [])
      /\ Forall (carries [user]) (issued (local_run "" []) [])
      /\ List.length (issued (local_run "be terse" []) []) = 1%nat
      /\ List.length (issued (local_run "" []) []) = 1%nat)
  /\ (Forall (carries [system; user]) (issued (openai_run "be terse" kw') [])
      /\ Forall (carries [user]) (issued (openai_run "" kw') [])
      /\ List.length (issued (openai_run "be terse" kw') []) = 1%nat
      /\ List.length (issued (openai_run "" kw') []) = 1%nat).
Proof.
  intros user system kw' local_run openai_run.
  assert (Hsp : "be terse" <> "") by discriminate.
  assert (Hfresh : fresh ["model"; "messages"; "max_tokens"; "temperature"] [])
    by constructor.
  assert (Hfresh' : fresh ["model"; "messages"; "temperature"] kw').
  { constructor; [|constructor]. cbn.
    intros [H|[H|[H|[]]]]; discriminate H. }
  split; [exact Hsp|]. split; [exact Hfresh|]. split; [exact Hfresh'|].
  split.
  - destruct (proj1 (@generate_messages "qwen" (answering "hi") "hello" 10%Z
                       0%float "be terse" [] [] [] Hsp)) as (H2 & H1 & Hn).
    destruct (Hn Hfresh) as (Hn2 & Hn1).
    split; [exact H2|]. split; [exact H1|]. split; [exact Hn2 | exact Hn1].
  - destruct (proj2 (@generate_messages "gpt" (answering "hi") "hello" 10%Z
                       0%float "be terse" [] kw' [] Hsp)) as (H2 & H1 & Hn).
    destruct (Hn Hfresh') as (Hn2 & Hn1).
    split; [exact H2|]. split; [exact H1|]. split; [exact Hn2 | exact Hn1].
Defined.

Lemma generate_fails_once_witness :
  let request :=
    [("model", PyStr "gpt");
     ("messages",
      PyList [PyDict [("role", PyStr "user");
                      ("content", PyList [PyDict [("type", PyStr "text");
                                                  ("text", PyStr "hello")]])]]);
     ("temperature", PyFloat 0%float);
     ("max_tokens", PyInt 10)] in
  let e := mkExn APIError "Connection error." in
  fresh ["model"; "messages"; "temperature"] [("max_tokens", PyInt 10)]
  /\ failing_once "hi" [] request = Raise e
  /\ OpenaiClient.generate "gpt" (failing_once "hi") "hello" ""
       [("max_tokens", PyInt 10)] []
     = (Raise (mkExn RuntimeError
                 "OpenAi generate request failed: Connection error."),
        [Create request; Sleep 60])
  /\ requests (added (OpenaiClient.generate "gpt" (failing_once "hi") "hello"
                        "" [("max_tokens", PyInt 10)]) [])
     = [request].
Proof.
  intros request e.
  assert (Hfresh : fresh ["model"; "messages"; "temperature"]
                     [("max_tokens", PyInt 10)]).
  { constructor; [|constructor]. cbn.
    intros [H|[H|[H|[]]]]; discriminate H. }
  assert (Hfail : failing_once "hi" [] request = Raise e) by reflexivity.
  split; [exact Hfresh|]. split; [exact Hfail|].
  exact (@generate_fails_once "gpt" (failing_once "hi") "hello" ""
           [("max_tokens", PyInt 10)] [] e Hfresh Hfail).
Defined.

End ChatSpec.

(** ** The vector-store adapter: errors, frame and repetition *)

Module QdrantCollectionMore.

Import Py QdrantCollection QdrantCollectionSpec Runs.
Local Open Scope string_scope.

Section Store.

Context {self : Declared} {builtins : Builtins}.
Variable PointStruct : Type.
Variable new_PointStruct : Z -> pyval -> pyval -> result PointStruct.
Variable Filter : Type.
Variable fault : list (request PointStruct) -> request PointStruct -> option exn.
Variable index : list (request PointStruct) -> request PointStruct -> list ScoredPoint.

Local Abbreviation world := (QdrantCollection.world PointStruct).
Local Abbreviation point_of := (QdrantCollection.point_of new_PointStruct).
Local Abbreviation add_records := (QdrantCollection.add_records new_PointStruct fault).
Local Abbreviation create_collection := (QdrantCollection.create_collection fault).
Local Abbreviation search := (QdrantCollection.search (Filter := Filter) fault index).

(** A call of [create_collection] that returns leaves the collection in the
    store: it was listed already, or it has just been created. *)
Theorem create_collection_ensures (w w' : world) :
  create_collection w = (Ok tt, w') ->
  In collection_name (collections w').
Proof.
  rewrite (create_collection_run fault w).
  destruct (fault (log w) GetCollections); [discriminate|].
  destruct (existsb (String.eqb collection_name) (collections w)) eqn:Hin.
  - intros H. injection H as <-. cbn [received collections].
    apply listed_iff. exact Hin.
  - cbv zeta. destruct (fault (log w ++ [GetCollections]) _); [discriminate|].
    intros H. injection H as <-. cbn [collections].
    apply in_or_app. right. left. reflexivity.
Qed.


(** [create_collection] never removes a collection from the store and adds
    none but its own, whether it returns or raises. *)
Theorem create_collection_frame (w : world) (name : string) :
  let w' := snd (create_collection w) in
  (In name (collections w) -> In name (collections w'))
  /\ (In name (collections w') ->
      In name (collections w) \/ name = collection_name).
Proof.
  cbv zeta. rewrite (create_collection_run fault w).
  destruct (fault (log w) GetCollections); [cbn; auto|].
  destruct (existsb (String.eqb collection_name) (collections w));
    [cbn; auto|].
  cbv zeta. destruct (fault (log w ++ [GetCollections]) _); [cbn; auto|].
  cbn [snd collections]. split.
  - intros H. apply in_or_app. left. exact H.
  - intros H. apply in_app_or in H. destruct H as [H|[H|[]]]; auto.
Qed.

Lemma create_collection_listed (w : world) :
  In collection_name (collections w) ->
  collections (snd (create_collection w)) = collections w
  /\ creations (log (snd (create_collection w))) = creations (log w).
Proof.
  intros Hin. rewrite (create_collection_run fault w).
  apply listed_iff in Hin. rewrite Hin.
  destruct (fault (log w) GetCollections); cbn [snd received collections log];
    (split; [reflexivity|]); rewrite creations_app; cbn; lia.
Qed.

(** Once the store holds the collection, no number of further calls of
    [create_collection] asks for a creation or changes the collections. *)
Theorem create_collection_again (n : nat) (w : world) :
  In collection_name (collections w) ->
  collections (again n create_collection w) = collections w
  /\ creations (log (again n create_collection w)) = creations (log w).
Proof.
  revert w. induction n as [|n IH]; intros w Hin; [split; reflexivity|].
  cbn [again].
  destruct (create_collection_listed w Hin) as [Hc Hn].
  destruct (IH (snd (create_collection w))) as [Hc' Hn'].
  { rewrite Hc. exact Hin. }
  split; congruence.
Qed.

Lemma for_each_lift_world {A B : Type} (f : A -> result B) (xs : list A)
  (w : world) :
  snd (for_each xs (fun x => lift (f x)) w) = w.
Proof.
  induction xs as [|x xs IH]; [reflexivity|].
  cbn [for_each]. unfold bind at 1, lift at 1.
  destruct (f x) as [y|e]; [|reflexivity].
  unfold bind at 1.
  destruct (for_each xs (fun x0 => lift (f x0)) w) as [[ys|e] w1] eqn:E;
    cbn [snd] in IH; subst w1; reflexivity.
Qed.

(** When all the records build, the outcome of [add_records] is that of the
    one upsert: [None] when the store accepts it, and when the store raises,
    a [RuntimeError] that names the collection and ends with the text of the
    cause.  Either way the store has received exactly that one call. *)
Theorem add_records_outcome (records : list kwargs)
  (points : list PointStruct) (w : world) :
  records <> [] ->
  Forall2 (fun rec p => point_of rec = Ok p) records points ->
  (fault (log w) (Upsert collection_name points) = None ->
   fst (add_records records w) = Ok tt)
  /\ (forall cause,
        fault (log w) (Upsert collection_name points) = Some cause ->
        fst (add_records records w)
        = Raise (mkExn RuntimeError
                   ("Failed to upsert records into '" ++ collection_name
                      ++ "': " ++ exn_str cause)))
  /\ snd (add_records records w) = received (Upsert collection_name points) w.
Proof.
  intros Hne Hall.
  rewrite (@add_records_built self builtins PointStruct new_PointStruct fault
             records points w Hne Hall).
  cbn [fst snd]. split; [intros ->; reflexivity|].
  split; [intros cause ->; reflexivity | reflexivity].
Qed.

(** Whatever the records, [add_records] sends the store nothing or one
    [Upsert] for the declared collection, and never changes which collections
    the store holds. *)
Theorem add_records_frame (records : list kwargs) (w : world) :
  let w' := snd (add_records records w) in
  (w' = w \/ exists points, w' = received (Upsert collection_name points) w)
  /\ collections w' = collections w
  /\ creations (log w') = creations (log w).
Proof.
  cbv zeta.
  assert (H : snd (add_records records w) = w
              \/ exists points,
                   snd (add_records records w)
                   = received (Upsert collection_name points) w).
  { unfold QdrantCollection.add_records.
    destruct records as [|rec records]; [left; reflexivity|].
    unfold bind.
    pose proof (for_each_lift_world point_of (rec :: records) w) as Hw.
    destruct (for_each (rec :: records) _ w) as [[points|e] w1];
      cbn [snd] in Hw; subst w1; [|left; reflexivity].
    right. exists points. rewrite PyFacts.try_except_Exception.
    unfold client_upsert.
    destruct (fault (log w) (Upsert collection_name points)); reflexivity. }
  split; [exact H|].
  destruct H as [-> | [points ->]]; [split; reflexivity|].
  cbn [received collections log]. split; [reflexivity|].
  rewrite creations_app. cbn. lia.
Qed.

(** A search the store fails comes out as a [RuntimeError] that names the
    collection and ends with the text of the cause; [search] raises nothing
    else, asks the store exactly once and leaves its collections alone. *)
Theorem search_error (query_vector : list float) (limit : Z)
  (filter : option Filter) (score_threshold : option float) (w : world) :
  let request := Search collection_name query_vector limit score_threshold in
  let run := search query_vector limit filter score_threshold w in
  (forall e, fst run = Raise e ->
     exists cause,
       fault (log w) request = Some cause
       /\ e = mkExn RuntimeError
                ("Search in '" ++ collection_name ++ "' failed: "
                   ++ exn_str cause))
  /\ (forall cause, fault (log w) request = Some cause ->
        exists e, fst run = Raise e /\ exn_cls e = RuntimeError)
  /\ snd run = received request w.
Proof.
  cbv zeta. rewrite (search_run fault index). cbv zeta. cbn [fst snd].
  split; [|split; [|reflexivity]].
  - intros e. destruct (fault (log w) _) as [cause|]; [|discriminate].
    intros H. injection H as <-. exists cause. split; reflexivity.
  - intros cause ->. eexists. split; reflexivity.
Qed.

(** [search] gives one record per hit of the store, in the same order: the
    adapter itself drops, adds and reorders nothing, whatever [limit] is. *)
Theorem search_one_record_per_hit (query_vector : list float) (limit : Z)
  (filter : option Filter) (score_threshold : option float) (w w' : world)
  (out : list pyval) :
  search query_vector limit filter score_threshold w = (Ok out, w') ->
  let hits :=
    index (log w) (Search collection_name query_vector limit score_threshold) in
  List.length out = List.length hits
  /\ forall i p, nth_error hits i = Some p ->
                 nth_error out i
                 = Some (PyDict [("id", sp_id p);
                                 ("payload", sp_payload p);
                                 ("score", PyFloat (sp_score p))]).
Proof.
  rewrite (search_run fault index). cbv zeta.
  destruct (fault (log w) _); [discriminate|].
  intros H. injection H as <- _.
  split; [apply length_map|].
  intros i p Hp. rewrite nth_error_map, Hp. reflexivity.
Qed.

End Store.

Import Scenarios.

#[local] Existing Instance AsciiBuiltins.builtins.

Lemma create_collection_ensures_witness :
  let w' := World (PointStruct := Point)
              [GetCollections;
               CreateCollection "books" {| size := 2; vp_distance := COSINE |}]
              ["books"] in
  QdrantCollection.create_collection (self := books) reliable empty_store
  = (Ok tt, w')
  /\ In "books" (collections w').
Proof.
  intros w'.
  assert (H : QdrantCollection.create_collection (self := books) reliable
                empty_store = (Ok tt, w')) by (vm_compute; reflexivity).
  split; [exact H|].
  exact (@create_collection_ensures books Point reliable empty_store w' H).
Defined.


Lemma create_collection_again_witness :
  let w := World (PointStruct := Point) [] ["books"] in
  In "books" (collections w)
  /\ collections (again 3 (QdrantCollection.create_collection (self := books)
                             reliable) w) = collections w
  /\ creations (log (again 3 (QdrantCollection.create_collection
                                (self := books) reliable) w))
     = creations (log w).
Proof.
  intros w.
  assert (H : In "books" (collections w)) by (left; reflexivity).
  split; [exact H|].
  exact (@create_collection_again books Point reliable 3 w H).
Defined.

(** A store that accepts everything but upserts. *)
Lemma add_records_outcome_witness :
  let refuse : list request -> request -> option exn :=
    fun _ r => match r with
               | Upsert _ _ => Some (mkExn APIError "disk full")
               | _ => None
               end in
  let records := [good_record] in
  let points :=
    [(7%Z, PyList [PyFloat 0.5%float; PyFloat 0.25%float], PyDict [])] in
  records <> []
  /\ Forall2 (fun rec p => QdrantCollection.point_of new_Point rec = Ok p)
       records points
  /\ refuse (log empty_store) (Upsert "books" points)
     = Some (mkExn APIError "disk full")
  /\ fst (QdrantCollection.add_records (self := books) new_Point refuse
            records empty_store)
     = Raise (mkExn RuntimeError
                "Failed to upsert records into 'books': disk full")
  /\ snd (QdrantCollection.add_records (self := books) new_Point refuse
            records empty_store)
     = received (Upsert "books" points) empty_store.
Proof.
  intros refuse records points.
  assert (Hne : records <> []) by discriminate.
  assert (Hall : Forall2
                   (fun rec p => QdrantCollection.point_of new_Point rec = Ok p)
                   records points)
    by (repeat constructor).
  assert (Hf : refuse (log empty_store) (Upsert "books" points)
               = Some (mkExn APIError "disk full")) by reflexivity.
  split; [exact Hne|]. split; [exact Hall|]. split; [exact Hf|].
  destruct (@add_records_outcome books AsciiBuiltins.builtins Point new_Point
              refuse records points empty_store Hne Hall)
    as (_ & Hfail & Hlog).
  split; [exact (Hfail _ Hf) | exact Hlog].
Defined.

Lemma search_one_record_per_hit_witness :
  let out := [PyDict [("id", PyInt 1); ("payload", PyDict []);
                      ("score", PyFloat 0.75%float)];
              PyDict [("id", PyInt 2); ("payload", PyDict []);
                      ("score", PyFloat 0.5%float)]] in
  let w' := received (Search "books" [1%float; 0%float] 1 None) empty_store in
  QdrantCollection.search (self := books) (Filter := unit) reliable two_hits
    [1%float; 0%float] 1%Z None None empty_store = (Ok out, w')
  /\ let hits := two_hits (log empty_store)
                   (Search "books" [1%float; 0%float] 1 None) in
     List.length out = List.length hits
     /\ forall i p, nth_error hits i = Some p ->
                    nth_error out i
                    = Some (PyDict [("id", sp_id p);
                                    ("payload", sp_payload p);
                                    ("score", PyFloat (sp_score p))]).
Proof.
  intros out w'.
  assert (H : QdrantCollection.search (self := books) (Filter := unit)
                reliable two_hits [1%float; 0%float] 1%Z None None
                empty_store = (Ok out, w')) by (vm_compute; reflexivity).
  split; [exact H|].
  exact (@search_one_record_per_hit books Point unit reliable two_hits
           [1%float; 0%float] 1%Z None None empty_store w' out H).
Defined.

End QdrantCollectionMore.

(** ** The chat-completion adapters: answers, failures and what is sent *)

Module ChatMore.

Import Py OpenAI Pydantic ChatSpec.
Local Open Scope string_scope.

Lemma lookup_present (k : string) (d : kwargs) :
  In k (map fst d) -> exists v, lookup k d = Some v.
Proof.
  induction d as [|[k' v'] d IH]; [intros []|].
  cbn [map fst In lookup]. intros [->|H].
  - rewrite String.eqb_refl. eauto.
  - destruct (String.eqb k k'); eauto.
Qed.

Lemma repeated_keyword_found (explicit kw : kwargs) :
  (exists k, In k (map fst explicit) /\ In k (map fst kw)) ->
  exists k', repeated_keyword explicit kw = Some k'.
Proof.
  induction kw as [|[k0 v0] kw IH]; intros (k & Hex & Hkw); [destruct Hkw|].
  cbn [repeated_keyword].
  destruct (lookup k0 explicit) as [v|] eqn:E; [eauto|].
  cbn [map fst In] in Hkw. destruct Hkw as [->|Hkw].
  - destruct (lookup_present k explicit Hex) as [v Hv]. congruence.
  - apply IH. eauto.
Qed.

Section Endpoint.

Context {builtins : Builtins}.
Variable model_name : string.
Variable endpoint : trace -> kwargs -> result ChatCompletion.
Variable files : string -> result (list byte).

Local Abbreviation local_generate :=
  (LocalOpenaiClient.generate model_name endpoint).
Local Abbreviation generate_json :=
  (LocalOpenaiClient.generate_json model_name endpoint).
Local Abbreviation generate_with_images :=
  (LocalOpenaiClient.generate_with_images model_name endpoint files).
Local Abbreviation openai_generate :=
  (OpenaiClient.generate model_name endpoint).
Local Abbreviation local_keywords :=
  (LocalOpenaiClient.chat_keywords model_name).
Local Abbreviation openai_keywords :=
  (OpenaiClient.chat_keywords model_name).
Local Abbreviation text_message prompt :=
  (LocalOpenaiClient.user_message
     (PyList [LocalOpenaiClient.text_part prompt])).

(** [generate] of the local adapter reads the first choice and nothing
    else: its content comes back as it is, a missing content comes back as
    [None], and a response without choices is a [RuntimeError]. *)
Theorem local_generate_first_choice (prompt : string) (max_tokens : Z)
  (temperature : float) (system_prompt : string) (kw : kwargs) (t : trace)
  (response : ChatCompletion) :
  let request :=
    (local_keywords
       (LocalOpenaiClient.opening system_prompt ++ [text_message prompt])
       max_tokens temperature ++ kw)%list in
  let outcome :=
    fst (local_generate prompt max_tokens temperature system_prompt kw t) in
  fresh ["model"; "messages"; "max_tokens"; "temperature"] kw ->
  endpoint t request = Ok response ->
  (forall choice others text,
     choices response = choice :: others ->
     content (message choice) = Some text -> outcome = Ok (PyStr text))
  /\ (forall choice others,
        choices response = choice :: others ->
        content (message choice) = None -> outcome = Ok PyNone)
  /\ (choices response = [] ->
      outcome = Raise (mkExn RuntimeError
                         ("Failed to parse server generate response: "
                            ++ "list index out of range"))).
Proof.
  intros request outcome Hfresh Hok. subst outcome.
  rewrite local_generate_run. cbv zeta.
  rewrite fresh_not_repeated by exact Hfresh.
  fold request. rewrite Hok. cbn [fst].
  unfold first_choice_content, first.
  split; [|split].
  - intros choice others text -> ->. reflexivity.
  - intros choice others -> ->. reflexivity.
  - intros ->. reflexivity.
Qed.

(** The OpenAI adapter's [generate] pauses exactly when the request itself
    failed (a repeated keyword, or the endpoint raising): an answer, even one
    that cannot be read, brings no pause. *)
Theorem openai_generate_pauses (prompt system_prompt : string) (kw : kwargs)
  (t : trace) :
  let explicit :=
    openai_keywords
      (LocalOpenaiClient.opening system_prompt ++ [text_message prompt])%list in
  let called :=
    fst (call_kw create_name (chat_completions_create endpoint) explicit kw t) in
  In (Sleep 60) (added (openai_generate prompt system_prompt kw) t)
  <-> exists e, called = Raise e.
Proof.
  intros explicit called. subst called.
  pose proof (openai_generate_run model_name endpoint prompt system_prompt
                kw t) as Hrun.
  cbv zeta in Hrun. fold explicit in Hrun.
  rewrite call_kw_create.
  destruct (repeated_keyword explicit kw) as [k|].
  - erewrite added_new; [|rewrite Hrun; reflexivity].
    cbn [fst]. split; [eauto | intros _; left; reflexivity].
  - cbn [fst].
    destruct (endpoint t (explicit ++ kw)%list) as [response|e].
    + erewrite added_new; [|rewrite Hrun; reflexivity].
      split; [intros [H|[]]; discriminate H | intros [e H]; discriminate H].
    + erewrite added_new; [|rewrite Hrun; reflexivity].
      split; [eauto | intros _; right; left; reflexivity].
Qed.

(** The OpenAI adapter's [generate] passes [model], [messages] and
    [temperature] itself: a caller who gives one of them as an extra keyword
    (a temperature, say) gets a [RuntimeError] after the pause, and the
    endpoint is never asked. *)
Theorem openai_generate_repeated_keyword (prompt system_prompt : string)
  (kw : kwargs) (t : trace) :
  (exists k, In k ["model"; "messages"; "temperature"] /\ In k (map fst kw)) ->
  exists e,
    openai_generate prompt system_prompt kw t
    = (Raise e, (t ++ [Sleep 60])%list)
    /\ exn_cls e = RuntimeError
    /\ issued (openai_generate prompt system_prompt kw) t = [].
Proof.
  intros Hrep.
  pose proof (openai_generate_run model_name endpoint prompt system_prompt
                kw t) as Hrun.
  cbv zeta in Hrun.
  destruct (repeated_keyword_found
              (openai_keywords
                 (LocalOpenaiClient.opening system_prompt
                    ++ [text_message prompt])%list) kw Hrep) as [k' Hk].
  rewrite Hk in Hrun. eexists. split; [exact Hrun|]. split; [reflexivity|].
  unfold issued. erewrite added_new; [|rewrite Hrun; reflexivity]. reflexivity.
Qed.

(** The local adapter's [generate] with [model] or [messages] given again
    as an extra keyword raises a [RuntimeError] and sends nothing. *)
Theorem local_generate_repeated_keyword (prompt : string) (max_tokens : Z)
  (temperature : float) (system_prompt : string) (kw : kwargs) (t : trace) :
  (exists k, In k ["model"; "messages"] /\ In k (map fst kw)) ->
  exists e,
    local_generate prompt max_tokens temperature system_prompt kw t
    = (Raise e, t)
    /\ exn_cls e = RuntimeError.
Proof.
  intros (k & Hk & Hkw).
  pose proof (local_generate_run model_name endpoint prompt max_tokens
                temperature system_prompt kw t) as Hrun.
  cbv zeta in Hrun.
  destruct (repeated_keyword_found
              (local_keywords
                 (LocalOpenaiClient.opening system_prompt
                    ++ [text_message prompt])%list max_tokens temperature)
              kw) as [k' Hk'].
  { exists k. split; [|exact Hkw]. cbn [map fst LocalOpenaiClient.chat_keywords].
    destruct Hk as [<-|[<-|[]]]; cbn; auto. }
  rewrite Hk' in Hrun. eexists. split; [exact Hrun | reflexivity].
Qed.

(** [generate_with_images], run without images. *)
Lemma generate_with_images_plain_run (prompt : string)
  (images : option (list string)) (system_prompt : string) (max_tokens : Z)
  (temperature : float) (t : trace) :
  images = None \/ images = Some [] ->
  let request :=
    local_keywords
      (LocalOpenaiClient.opening system_prompt ++ [text_message prompt])%list
      max_tokens temperature in
  generate_with_images prompt images system_prompt max_tokens temperature t
  = (match endpoint t request with
     | Raise e =>
         Raise (mkExn RuntimeError
                  ("server generate_with_images request failed: "
                     ++ exn_str e))
     | Ok response =>
         match choices response with
         | [] =>
             Raise (mkExn RuntimeError
                      ("Failed to parse server generate_with_images response: "
                         ++ "list index out of range"))
         | choice :: _ =>
             match content (message choice) with
             | Some text => Ok (PyStr (strip text))
             | None =>
                 Raise (mkExn RuntimeError
                          ("Failed to parse server generate_with_images response: "
                             ++ "'NoneType' object has no attribute 'strip'"))
             end
         end
     end,
     (t ++ [Create request])%list).
Proof.
  intros Himg request.
  assert (E : generate_with_images prompt images system_prompt max_tokens
                temperature t
              = generate_with_images prompt None system_prompt max_tokens
                  temperature t)
    by (destruct Himg as [->| ->]; reflexivity).
  rewrite E. clear E Himg.
  unfold LocalOpenaiClient.generate_with_images. unfold bind at 1.
  rewrite PyFacts.try_except_Exception.
  cbn [for_each]. unfold bind at 1, ret at 1. cbn [app].
  unfold chat_completions_create.
  fold (LocalOpenaiClient.chat_keywords model_name
          (LocalOpenaiClient.opening system_prompt ++ [text_message prompt])%list
          max_tokens temperature).
  fold request.
  destruct (endpoint t request) as [response|e]; [|reflexivity].
  unfold try_except, first.
  destruct (choices response) as [|choice others]; [reflexivity|].
  destruct (content (message choice)); reflexivity.
Qed.

Lemma generate_with_images_arity_run (prompt img : string)
  (rest : list string) (system_prompt : string) (max_tokens : Z)
  (temperature : float) (t : trace) :
  exists e,
    generate_with_images prompt (Some (img :: rest)) system_prompt max_tokens
      temperature t = (Raise e, t)
    /\ exn_cls e = RuntimeError.
Proof.
  eexists. split.
  - unfold LocalOpenaiClient.generate_with_images. unfold bind at 1.
    rewrite PyFacts.try_except_Exception. reflexivity.
  - reflexivity.
Qed.

(** Without images, [generate_with_images] calls [create] once, with a user
    message that holds the text part alone, and returns [content.strip()] of
    the first choice, whatever [str.strip] takes for white space; where
    [generate] returns [None] for a missing content, it raises a
    [RuntimeError]. *)
Theorem generate_with_images_plain (prompt : string)
  (images : option (list string)) (system_prompt : string) (max_tokens : Z)
  (temperature : float) (t : trace) (response : ChatCompletion)
  (choice : Choice) (others : list Choice) :
  let request :=
    [("model", PyStr model_name);
     ("messages",
      PyList (LocalOpenaiClient.opening system_prompt
                ++ [PyDict [("role", PyStr "user");
                            ("content",
                             PyList [PyDict [("type", PyStr "text");
                                             ("text", PyStr prompt)]])]]));
     ("max_tokens", PyInt max_tokens);
     ("temperature", PyFloat temperature)] in
  let run :=
    generate_with_images prompt images system_prompt max_tokens temperature t in
  images = None \/ images = Some [] ->
  endpoint t request = Ok response ->
  choices response = choice :: others ->
  snd run = (t ++ [Create request])%list
  /\ (forall text, content (message choice) = Some text ->
        fst run = Ok (PyStr (strip text)))
  /\ (content (message choice) = None ->
      exists e, fst run = Raise e /\ exn_cls e = RuntimeError).
Proof.
  intros request run Himg Hok Hch. subst run.
  rewrite (generate_with_images_plain_run prompt system_prompt max_tokens
             temperature t Himg).
  cbv zeta.
  unfold LocalOpenaiClient.chat_keywords, LocalOpenaiClient.user_message,
    LocalOpenaiClient.text_part.
  fold request. rewrite Hok, Hch. cbn [fst snd].
  split; [reflexivity|]. split.
  - intros text ->. reflexivity.
  - intros ->. eexists. split; reflexivity.
Qed.

(** [generate] in both adapters and [generate_with_images] raise nothing
    but [RuntimeError]: a failed request, a repeated keyword, an image that
    cannot be encoded and an answer that cannot be read all come out in that
    class. *)
Theorem generate_raises_runtime_error (prompt system_prompt : string)
  (max_tokens : Z) (temperature : float) (images : option (list string))
  (kw : kwargs) (t : trace) (e : exn) :
  fst (local_generate prompt max_tokens temperature system_prompt kw t)
  = Raise e
  \/ fst (openai_generate prompt system_prompt kw t) = Raise e
  \/ fst (generate_with_images prompt images system_prompt max_tokens
            temperature t) = Raise e ->
  exn_cls e = RuntimeError.
Proof.
  intros [H|[H|H]].
  - rewrite local_generate_run in H. cbv zeta in H.
    destruct (repeated_keyword _ kw);
      [cbn in H; injection H as <-; reflexivity|].
    cbn [fst] in H.
    destruct (endpoint t _) as [response|c];
      [|injection H as <-; reflexivity].
    destruct (first_choice_content response);
      [discriminate | injection H as <-; reflexivity].
  - rewrite openai_generate_run in H. cbv zeta in H.
    destruct (repeated_keyword _ kw);
      [cbn in H; injection H as <-; reflexivity|].
    destruct (endpoint t _) as [response|c];
      [|injection H as <-; reflexivity].
    cbn [fst] in H.
    destruct (first_choice_content response);
      [discriminate | injection H as <-; reflexivity].
  - destruct images as [[|img rest]|].
    + rewrite (generate_with_images_plain_run prompt system_prompt max_tokens
                 temperature t (or_intror eq_refl)) in H.
      cbv zeta in H. cbn [fst] in H.
      destruct (endpoint t _) as [response|c];
        [|injection H as <-; reflexivity].
      destruct (choices response) as [|choice others];
        [injection H as <-; reflexivity|].
      destruct (content (message choice));
        [discriminate | injection H as <-; reflexivity].
    + destruct (generate_with_images_arity_run prompt img rest system_prompt
                  max_tokens temperature t) as (e' & Hrun & Hcls).
      rewrite Hrun in H. injection H as <-. exact Hcls.
    + rewrite (generate_with_images_plain_run prompt system_prompt max_tokens
                 temperature t (or_introl eq_refl)) in H.
      cbv zeta in H. cbn [fst] in H.
      destruct (endpoint t _) as [response|c];
        [|injection H as <-; reflexivity].
      destruct (choices response) as [|choice others];
        [injection H as <-; reflexivity|].
      destruct (content (message choice));
        [discriminate | injection H as <-; reflexivity].
Qed.

(** What [generate_json] sends: nothing when a keyword is repeated, else
    one request. *)
Lemma generate_json_issued (response_model : BaseModel) (prompt : string)
  (max_tokens : Z) (temperature : float) (system_prompt : string)
  (kw : kwargs) (t : trace) :
  let explicit :=
    local_keywords
      (LocalOpenaiClient.opening system_prompt
         ++ [LocalOpenaiClient.user_message (PyStr prompt)])%list
      max_tokens temperature in
  issued (generate_json prompt max_tokens response_model temperature
            system_prompt kw) t
  = match repeated_keyword explicit kw with
    | Some _ => []
    | None => [(explicit ++ kw)%list]
    end.
Proof.
  intros explicit. unfold issued.
  pose proof (generate_json_run model_name endpoint response_model prompt
                max_tokens temperature system_prompt kw t) as Hrun.
  unfold LocalOpenaiClient.json_completion in Hrun.
  rewrite call_kw_create in Hrun. fold explicit in Hrun.
  destruct (repeated_keyword explicit kw).
  - rewrite added_nothing; [reflexivity | rewrite Hrun; reflexivity].
  - assert (Hs : snd (generate_json prompt max_tokens response_model
                        temperature system_prompt kw t)
                 = (t ++ [Create (explicit ++ kw)%list])%list)
      by (rewrite Hrun; destruct (endpoint t (explicit ++ kw)%list);
          reflexivity).
    erewrite added_new; [|exact Hs]. reflexivity.
Qed.

(** No method of the two adapters calls [chat.completions.create] more than
    once in one run: the code of the adapters has no loop around the call
    and no second call in a handler.  What the SDK client does inside one
    call of [create], its own retries included, is not counted. *)
Theorem at_most_one_create_call (response_model : BaseModel)
  (prompt system_prompt : string) (max_tokens : Z) (temperature : float)
  (images : option (list string)) (kw : kwargs) (t : trace) :
  (List.length (issued (local_generate prompt max_tokens temperature
                          system_prompt kw) t) <= 1)%nat
  /\ (List.length (issued (generate_json prompt max_tokens response_model
                             temperature system_prompt kw) t) <= 1)%nat
  /\ (List.length (issued (generate_with_images prompt images system_prompt
                             max_tokens temperature) t) <= 1)%nat
  /\ (List.length (issued (openai_generate prompt system_prompt kw) t) <= 1)%nat.
Proof.
  rewrite local_generate_issued, generate_json_issued, openai_generate_issued.
  cbv zeta. split; [|split; [|split]].
  - destruct (repeated_keyword _ kw); cbn; lia.
  - destruct (repeated_keyword _ kw); cbn; lia.
  - unfold issued. destruct images as [[|img rest]|].
    + erewrite added_new;
        [|rewrite (generate_with_images_plain_run prompt system_prompt
                     max_tokens temperature t (or_intror eq_refl));
          reflexivity].
      cbn; lia.
    + destruct (generate_with_images_arity_run prompt img rest system_prompt
                  max_tokens temperature t) as (e' & Hrun & _).
      rewrite added_nothing; [cbn; lia | rewrite Hrun; reflexivity].
    + erewrite added_new;
        [|rewrite (generate_with_images_plain_run prompt system_prompt
                     max_tokens temperature t (or_introl eq_refl));
          reflexivity].
      cbn; lia.
  - destruct (repeated_keyword _ kw); cbn; lia.
Qed.

(** [generate_json] sends the user's prompt as a plain string, not as a
    list of parts, after the system message when there is one; and a
    response without choices is a [RuntimeError] with a fixed text, the model
    not being consulted. *)
Theorem generate_json_request (response_model : BaseModel) (prompt : string)
  (max_tokens : Z) (temperature : float) (system_prompt : string)
  (kw : kwargs) (t : trace) :
  let user := PyDict [("role", PyStr "user"); ("content", PyStr prompt)] in
  let system :=
    PyDict [("role", PyStr "system"); ("content", PyStr system_prompt)] in
  let run sp :=
    generate_json prompt max_tokens response_model temperature sp kw in
  fresh ["model"; "messages"; "max_tokens"; "temperature"] kw ->
  (system_prompt <> "" ->
   exists request, issued (run system_prompt) t = [request]
                   /\ carries [system; user] request)
  /\ (exists request, issued (run "") t = [request] /\ carries [user] request)
  /\ (forall response sp,
        fst (LocalOpenaiClient.json_completion model_name endpoint prompt
               max_tokens temperature sp kw t) = Ok response ->
        choices response = [] ->
        fst (run sp t)
        = Raise (mkExn RuntimeError
                   "Failed to retrieve content from model response")).
Proof.
  intros user system run Hfresh. subst run. cbv beta.
  split; [|split].
  - intros Hsp. rewrite generate_json_issued. cbv zeta.
    rewrite fresh_not_repeated by exact Hfresh.
    eexists. split; [reflexivity|].
    rewrite (opening_system Hsp). reflexivity.
  - rewrite generate_json_issued. cbv zeta.
    rewrite fresh_not_repeated by exact Hfresh.
    eexists. split; reflexivity.
  - intros response sp Hcall Hch. rewrite generate_json_run.
    destruct (LocalOpenaiClient.json_completion _ _ _ _ _ _ kw t)
      as [[r|e] t']; cbn [fst] in Hcall |- *; [|discriminate].
    injection Hcall as ->.
    unfold first_choice_content, first. rewrite Hch. reflexivity.
Qed.

(** *** The data URI of an image *)

Lemma b64encode_length_upto (n : nat) :
  forall bs : list byte,
    (List.length bs <= n)%nat ->
    String.length (Base64.b64encode bs)
    = (4 * ((List.length bs + 2) / 3))%nat.
Proof.
  induction n as [|n IH]; intros bs Hn.
  - destruct bs; [reflexivity | simpl in Hn; lia].
  - destruct bs as [|a [|b [|c rest]]]; try reflexivity.
    rewrite Base64Facts.b64encode_cons3.
    change (Base64.b64encode [a; b; c] ++ Base64.b64encode rest)
      with (String (Base64.b2a (Base64.byte_val a / 4))
              (String (Base64.b2a (Base64.byte_val a mod 4 * 16
                                   + Base64.byte_val b / 16))
                 (String (Base64.b2a (Base64.byte_val b mod 16 * 4
                                      + Base64.byte_val c / 64))
                    (String (Base64.b2a (Base64.byte_val c mod 64))
                       (Base64.b64encode rest))))).
    cbn [String.length List.length].
    rewrite IH by (simpl in Hn; lia).
    replace (S (S (S (List.length rest))) + 2)%nat
      with (1 * 3 + (List.length rest + 2))%nat by lia.
    rewrite Nat.div_add_l by discriminate. lia.
Qed.

(** [_encode_image_to_data_uri] given the path of a readable file returns
    ["data:image/jpeg;base64,"] followed by a text that decodes to the bytes
    of the file and is four characters long for every three bytes begun;
    nothing is sent. *)
Theorem encode_image_data_uri (path : string) (img : list byte) (t : trace) :
  files path = Ok img ->
  exists body,
    call (LocalOpenaiClient._encode_image_to_data_uri files) [PyStr path] t
    = (Ok ("data:image/jpeg;base64," ++ body), t)
    /\ Base64.b64decode body = Some img
    /\ String.length body = (4 * ((List.length img + 2) / 3))%nat.
Proof.
  intros Hfile.
  destruct (encode_image_called_directly files path t Hfile) as [Hcall Hround].
  exists (Base64.b64encode img). split; [exact Hcall|]. split; [exact Hround|].
  apply b64encode_length_upto with (n := List.length img). lia.
Qed.

(** A file that cannot be read makes [_encode_image_to_data_uri] raise a
    [RuntimeError] that names the path and ends with the text of the
    cause. *)
Theorem encode_image_unreadable (path : string) (cause : exn) (t : trace) :
  files path = Raise cause ->
  call (LocalOpenaiClient._encode_image_to_data_uri files) [PyStr path] t
  = (Raise (mkExn RuntimeError
              ("Failed to encode image '" ++ path ++ "': " ++ exn_str cause)),
     t).
Proof.
  intros Hfile. unfold call.
  cbn [List.length params body Nat.eqb
         LocalOpenaiClient._encode_image_to_data_uri].
  rewrite PyFacts.try_except_Exception.
  unfold bind, lift, LocalOpenaiClient.read_binary. rewrite Hfile.
  reflexivity.
Qed.

(** Files with different contents never get the same data URI. *)
Theorem encode_image_injective (path1 path2 : string)
  (img1 img2 : list byte) (t1 t2 : trace) :
  files path1 = Ok img1 ->
  files path2 = Ok img2 ->
  fst (call (LocalOpenaiClient._encode_image_to_data_uri files)
         [PyStr path1] t1)
  = fst (call (LocalOpenaiClient._encode_image_to_data_uri files)
           [PyStr path2] t2) ->
  img1 = img2.
Proof.
  intros H1 H2 Heq.
  destruct (encode_image_called_directly files path1 t1 H1) as [C1 R1].
  destruct (encode_image_called_directly files path2 t2 H2) as [C2 R2].
  rewrite C1, C2 in Heq. cbn [fst] in Heq.
  injection Heq as Heq.
  rewrite Heq in R1. rewrite R1 in R2. injection R2 as ->. reflexivity.
Qed.

End Endpoint.

(** *** The properties at work on concrete endpoints and files *)

Import Scenarios MoreScenarios.

#[local] Existing Instance AsciiBuiltins.builtins.

Lemma local_generate_first_choice_witness :
  let request :=
    [("model", PyStr "qwen");
     ("messages",
      PyList [PyDict [("role", PyStr "user");
                      ("content", PyList [PyDict [("type", PyStr "text");
                                                  ("text", PyStr "hello")]])]]);
     ("max_tokens", PyInt 10);
     ("temperature", PyFloat 0%float)] in
  fresh ["model"; "messages"; "max_tokens"; "temperature"] []
  /\ answering "hi" [] request = Ok (reply "hi")
  /\ fst (LocalOpenaiClient.generate "qwen" (answering "hi") "hello" 10
            0%float "" [] []) = Ok (PyStr "hi").
Proof.
  intros request.
  assert (Hfresh : fresh ["model"; "messages"; "max_tokens"; "temperature"] [])
    by constructor.
  assert (Hok : answering "hi" [] request = Ok (reply "hi")) by reflexivity.
  split; [exact Hfresh|]. split; [exact Hok|].
  destruct (@local_generate_first_choice "qwen" (answering "hi") "hello" 10%Z
              0%float "" [] [] (reply "hi") Hfresh Hok) as (Htext & _ & _).
  exact (Htext _ [] "hi" eq_refl eq_refl).
Defined.

Lemma openai_generate_repeated_keyword_witness :
  let kw := [("temperature", PyFloat 0.5%float)] in
  (exists k, In k ["model"; "messages"; "temperature"] /\ In k (map fst kw))
  /\ exists e,
       OpenaiClient.generate "gpt" (answering "hi") "hello" "" kw []
       = (Raise e, [Sleep 60])
       /\ exn_cls e = RuntimeError
       /\ issued (OpenaiClient.generate "gpt" (answering "hi") "hello" "" kw)
            [] = [].
Proof.
  intros kw.
  assert (H : exists k, In k ["model"; "messages"; "temperature"]
                        /\ In k (map fst kw)).
  { exists "temperature". split; [right; right; left|left]; reflexivity. }
  split; [exact H|].
  exact (@openai_generate_repeated_keyword "gpt" (answering "hi") "hello" ""
           kw [] H).
Defined.

Lemma local_generate_repeated_keyword_witness :
  let kw := [("model", PyStr "other")] in
  (exists k, In k ["model"; "messages"] /\ In k (map fst kw))
  /\ exists e,
       LocalOpenaiClient.generate "qwen" (answering "hi") "hello" 10 0%float
         "" kw [] = (Raise e, [])
       /\ exn_cls e = RuntimeError.
Proof.
  intros kw.
  assert (H : exists k, In k ["model"; "messages"] /\ In k (map fst kw)).
  { exists "model". split; left; reflexivity. }
  split; [exact H|].
  exact (@local_generate_repeated_keyword "qwen" (answering "hi") "hello"
           10%Z 0%float "" kw [] H).
Defined.

Lemma generate_with_images_plain_witness :
  let padded := String " " (String " " (String "h" (String "i"
                  (String " " (String "010"%char EmptyString))))) in
  let request :=
    [("model", PyStr "qwen");
     ("messages",
      PyList [PyDict [("role", PyStr "user");
                      ("content", PyList [PyDict [("type", PyStr "text");
                                                  ("text", PyStr "hello")]])]]);
     ("max_tokens", PyInt 512);
     ("temperature", PyFloat 0.5%float)] in
  let run :=
    LocalOpenaiClient.generate_with_images "qwen" (answering padded) disk
      "hello" None "" 512 0.5%float [] in
  (@None (list string) = None \/ @None (list string) = Some [])
  /\ answering padded [] request = Ok (reply padded)
  /\ snd run = [Create request]
  /\ fst run = Ok (PyStr "hi").
Proof.
  intros padded request run.
  assert (Himg : @None (list string) = None \/ @None (list string) = Some [])
    by (left; reflexivity).
  assert (Hok : answering padded [] request = Ok (reply padded))
    by reflexivity.
  split; [exact Himg|]. split; [exact Hok|].
  destruct (@generate_with_images_plain AsciiBuiltins.builtins "qwen"
              (answering padded) disk
              "hello" None "" 512%Z 0.5%float [] (reply padded)
              {| message := {| content := Some padded |} |} []
              Himg Hok eq_refl) as (Hs & Htext & _).
  split; [exact Hs|]. exact (Htext padded eq_refl).
Defined.

Lemma generate_raises_runtime_error_witness :
  let e := mkExn RuntimeError
             ("Failed to parse server generate response: "
                ++ "list index out of range") in
  (fst (LocalOpenaiClient.generate "qwen" silent "hello" 10 0%float "" [] [])
   = Raise e
   \/ fst (OpenaiClient.generate "qwen" silent "hello" "" [] []) = Raise e
   \/ fst (LocalOpenaiClient.generate_with_images "qwen" silent disk "hello"
             None "" 10 0%float []) = Raise e)
  /\ exn_cls e = RuntimeError.
Proof.
  intros e.
  assert (H : fst (LocalOpenaiClient.generate "qwen" silent "hello" 10
                     0%float "" [] []) = Raise e
              \/ fst (OpenaiClient.generate "qwen" silent "hello" "" [] [])
                 = Raise e
              \/ fst (LocalOpenaiClient.generate_with_images "qwen" silent
                        disk "hello" None "" 10 0%float []) = Raise e)
    by (left; vm_compute; reflexivity).
  split; [exact H|].
  exact (@generate_raises_runtime_error AsciiBuiltins.builtins "qwen" silent
           disk "hello" "" 10%Z
           0%float None [] [] e H).
Defined.

Lemma generate_json_request_witness :
  let user := PyDict [("role", PyStr "user"); ("content", PyStr "hello")] in
  let system :=
    PyDict [("role", PyStr "system"); ("content", PyStr "be terse")] in
  let run sp :=
    LocalOpenaiClient.generate_json "qwen" (answering json_a1) "hello" 10
      ModelA.A 0%float sp [] in
  fresh ["model"; "messages"; "max_tokens"; "temperature"] []
  /\ "be terse" <> ""
  /\ (exists request, issued (run "be terse") [] = [request]
                      /\ carries [system; user] request)
  /\ (exists request, issued (run "") [] = [request]
                      /\ carries [user] request).
Proof.
  intros user system run.
  assert (Hfresh : fresh ["model"; "messages"; "max_tokens"; "temperature"] [])
    by constructor.
  assert (Hsp : "be terse" <> "") by discriminate.
  split; [exact Hfresh|]. split; [exact Hsp|].
  destruct (@generate_json_request "qwen" (answering json_a1) ModelA.A
              "hello" 10%Z 0%float "be terse" [] [] Hfresh)
    as (Htwo & Hone & _).
  split; [exact (Htwo Hsp) | exact Hone].
Defined.

Lemma encode_image_data_uri_witness :
  disk "cat.jpg" = Ok cat_jpg
  /\ exists body,
       call (LocalOpenaiClient._encode_image_to_data_uri disk)
         [PyStr "cat.jpg"] []
       = (Ok ("data:image/jpeg;base64," ++ body), [])
       /\ Base64.b64decode body = Some cat_jpg
       /\ String.length body = (4 * ((List.length cat_jpg + 2) / 3))%nat.
Proof.
  assert (H : disk "cat.jpg" = Ok cat_jpg) by reflexivity.
  split; [exact H|].
  exact (@encode_image_data_uri disk "cat.jpg" cat_jpg [] H).
Defined.

Lemma encode_image_unreadable_witness :
  let cause := mkExn OSError
                 "[Errno 2] No such file or directory: 'dog.jpg'" in
  disk "dog.jpg" = Raise cause
  /\ call (LocalOpenaiClient._encode_image_to_data_uri disk)
       [PyStr "dog.jpg"] []
     = (Raise (mkExn RuntimeError
                 ("Failed to encode image '" ++ "dog.jpg" ++ "': "
                    ++ exn_str cause)),
        []).
Proof.
  intros cause.
  assert (H : disk "dog.jpg" = Raise cause) by reflexivity.
  split; [exact H|].
  exact (@encode_image_unreadable disk "dog.jpg" cause [] H).
Defined.

Lemma encode_image_injective_witness :
  shelf "cat.jpg" = Ok cat_jpg
  /\ shelf "copy.jpg" = Ok cat_jpg
  /\ fst (call (LocalOpenaiClient._encode_image_to_data_uri shelf)
            [PyStr "cat.jpg"] [])
     = fst (call (LocalOpenaiClient._encode_image_to_data_uri shelf)
              [PyStr "copy.jpg"] [])
  /\ cat_jpg = cat_jpg.
Proof.
  assert (H1 : shelf "cat.jpg" = Ok cat_jpg) by reflexivity.
  assert (H2 : shelf "copy.jpg" = Ok cat_jpg) by reflexivity.
  assert (H3 : fst (call (LocalOpenaiClient._encode_image_to_data_uri shelf)
                      [PyStr "cat.jpg"] [])
               = fst (call (LocalOpenaiClient._encode_image_to_data_uri shelf)
                        [PyStr "copy.jpg"] []))
    by (vm_compute; reflexivity).
  split; [exact H1|]. split; [exact H2|]. split; [exact H3|].
  exact (@encode_image_injective shelf "cat.jpg" "copy.jpg" cat_jpg cat_jpg
           [] [] H1 H2 H3).
Defined.

End ChatMore.

(** ** The document-store adapter *)

Module ArangoSpec.

Import Py ArangoCollectionBase.
Local Open Scope string_scope.

Lemma arango_creations_app (l1 l2 : list call) :
  creations (l1 ++ l2) = (creations l1 + creations l2)%nat.
Proof. unfold creations. rewrite filter_app, length_app. reflexivity. Qed.

Lemma present_iff (name : string) (cs : list (string * bool)) :
  existsb (fun c => String.eqb name (fst c)) cs = true
  <-> In name (map fst cs).
Proof.
  rewrite existsb_exists, in_map_iff. split.
  - intros (c & Hin & Heq). apply String.eqb_eq in Heq. eauto.
  - intros (c & Heq & Hin). exists c. split; [exact Hin|].
    rewrite Heq. apply String.eqb_refl.
Qed.

Section Server.

Context {self : Declared}.
Variable fault : list call -> call -> option raised.
Variable answer : list call -> call -> pyval.
Variable rows : list call -> call -> list pyval * option raised.

Local Abbreviation init := (__init__ fault).
Local Abbreviation present w :=
  (existsb (fun c => String.eqb collection_name (fst c)) (collections w)).

(** [__init__], run: two calls to connect, then the collection is looked
    for, created when it is not there, and opened. *)
Lemma init_run (host : string) (port : Z) (username password db_name : string)
  (w : world) :
  let url := host ++ ":" ++ decimal port in
  let c1 := NewClient url in
  let c2 := Db db_name username password in
  let c3 := HasCollection collection_name in
  let c4 := CreateCollection collection_name is_edge_collection in
  let c5 := Collection collection_name in
  let made := {| db := db_name; collection := collection_name |} in
  init host port username password db_name w
  = match fault (log w) c1 with
    | Some e => (Raise (connect_error url db_name e), received c1 w)
    | None =>
    match fault (log w ++ [c1]) c2 with
    | Some e =>
        (Raise (connect_error url db_name e), World (log w ++ [c1; c2])
                                                 (collections w))
    | None =>
    match fault (log w ++ [c1; c2]) c3 with
    | Some e =>
        (Raise (access_error e), World (log w ++ [c1; c2; c3]) (collections w))
    | None =>
    if present w then
      match fault (log w ++ [c1; c2; c3]) c5 with
      | Some e =>
          (Raise (access_error e),
           World (log w ++ [c1; c2; c3; c5]) (collections w))
      | None =>
          (Ok made, World (log w ++ [c1; c2; c3; c5]) (collections w))
      end
    else
      match fault (log w ++ [c1; c2; c3]) c4 with
      | Some e =>
          (Raise (access_error e),
           World (log w ++ [c1; c2; c3; c4]) (collections w))
      | None =>
      match fault (log w ++ [c1; c2; c3; c4]) c5 with
      | Some e =>
          (Raise (access_error e),
           World (log w ++ [c1; c2; c3; c4; c5])
                 (collections w ++ [(collection_name, is_edge_collection)]))
      | None =>
          (Ok made,
           World (log w ++ [c1; c2; c3; c4; c5])
                 (collections w ++ [(collection_name, is_edge_collection)]))
      end
      end
    end
    end
    end.
Proof.
  intros url c1 c2 c3 c4 c5 made.
  unfold __init__. fold url.
  replace (if is_edge_collection
           then and_then (has_collection fault collection_name)
                  (fun present0 =>
                     and_then (if negb present0
                               then create_collection fault collection_name true
                               else done tt)
                       (fun _ => db_collection fault collection_name))
           else and_then (has_collection fault collection_name)
                  (fun present0 =>
                     and_then (if negb present0
                               then create_collection fault collection_name false
                               else done tt)
                       (fun _ => db_collection fault collection_name)))
    with (and_then (has_collection fault collection_name)
            (fun present0 =>
               and_then (if negb present0
                         then create_collection fault collection_name
                                is_edge_collection
                         else done tt)
                 (fun _ => db_collection fault collection_name)))
    by (destruct is_edge_collection; reflexivity).
  unfold bind, try_driver, and_then, ArangoClient, client_db, has_collection,
    create_collection, db_collection, plain, done, ret.
  fold c1 c2 c3 c4 c5.
  repeat first
    [ reflexivity
    | progress unfold received, access_error, connect_error
    | progress cbn [log collections pick negb]
    | progress (rewrite <- !app_assoc; cbn [app])
    | match goal with
      | H : existsb _ (collections w) = _ |- _ => rewrite H
      end
    | match goal with
      | |- context [negb (existsb ?f (collections w))] =>
          destruct (existsb f (collections w)) eqn:?
      end
    | match goal with
      | |- context [fault ?l ?c] => destruct (fault l c)
      end ].
Qed.

Ltac init_cases H :=
  rewrite init_run in H; cbv zeta in H;
  repeat match type of H with
         | context [fault ?l ?c] => destruct (fault l c) as [?cause|] eqn:?
         | context [if ?b then _ else _] => destruct b eqn:?
         end.

(** A constructor that returns has connected to the database it was given
    and holds the declared collection; the server holds that collection
    afterwards.  A collection that was there is left as it was, with no
    creation asked; one that was missing is created once, as an edge
    collection exactly when the subclass says so. *)
Theorem init_ensures_collection (host : string) (port : Z)
  (username password db_name : string) (w w' : world) (made : instance) :
  init host port username password db_name w = (Ok made, w') ->
  made = {| db := db_name; collection := collection_name |}
  /\ holds w' collection_name
  /\ (holds w collection_name ->
      collections w' = collections w
      /\ creations (log w') = creations (log w))
  /\ (~ holds w collection_name ->
      collections w' = (collections w
                          ++ [(collection_name, is_edge_collection)])%list
      /\ creations (log w') = S (creations (log w))).
Proof.
  intros H. unfold holds. init_cases H; try discriminate H;
    injection H as <- <-; cbn [log collections];
    match goal with
    | Hp : existsb _ _ = true |- _ =>
        apply present_iff in Hp;
        split; [reflexivity|]; split; [exact Hp|]; split;
        [ intros _; split; [reflexivity|]; rewrite arango_creations_app; cbn; lia
        | intros Hn; contradiction ]
    | Hp : existsb _ _ = false |- _ =>
        split; [reflexivity|]; split;
        [ rewrite map_app; apply in_or_app; right; left; reflexivity |];
        split;
        [ intros Hin; apply present_iff in Hin; congruence
        | intros _; split; [reflexivity|]; rewrite arango_creations_app; cbn; lia ]
    end.
Qed.

(** Whatever fails inside the constructor comes out as a [RuntimeError]
    that ends with the text of what the driver raised.  When one of the two
    connecting calls fails, the error has the text of a failed connection,
    with the address and the database, and no call about the collection has
    been made.  When a later call fails, it is the last call the driver has
    seen, it is about the collection, and the error has the text of a failed
    creation for a [CollectionCreateError] and the other text for anything
    else. *)
Theorem init_error (host : string) (port : Z)
  (username password db_name : string) (w w' : world) (e : exn) :
  let url := host ++ ":" ++ decimal port in
  let c1 := NewClient url in
  let c2 := Db db_name username password in
  init host port username password db_name w = (Raise e, w') ->
  exn_cls e = RuntimeError
  /\ ((exists cause,
         ((fault (log w) c1 = Some cause /\ log w' = (log w ++ [c1])%list)
          \/ (fault (log w) c1 = None
              /\ fault (log w ++ [c1]) c2 = Some cause
              /\ log w' = (log w ++ [c1; c2])%list))
         /\ e = mkExn RuntimeError
                  ("Failed to connect to ArangoDB at " ++ url ++ "/"
                     ++ db_name ++ ": " ++ text cause))
      \/ (fault (log w) c1 = None
          /\ fault (log w ++ [c1]) c2 = None
          /\ exists cause c before,
               log w' = (before ++ [c])%list
               /\ collection_call c = true
               /\ fault before c = Some cause
               /\ e = if derives (cls cause) CollectionCreateError
                      then mkExn RuntimeError
                             ("Failed to create or access collection '"
                                ++ collection_name ++ "': " ++ text cause)
                      else mkExn RuntimeError
                             ("Unexpected error accessing collection '"
                                ++ collection_name ++ "': " ++ text cause))).
Proof.
  cbv zeta. intros H.
  pose (c1 := NewClient (host ++ ":" ++ decimal port)).
  pose (c2 := Db db_name username password).
  pose (c3 := HasCollection collection_name).
  pose (c4 := CreateCollection collection_name is_edge_collection).
  pose (c5 := Collection collection_name).
  init_cases H; try discriminate H; injection H as <- <-;
    (split;
     [ try reflexivity; unfold access_error;
       match goal with
       | |- context [derives ?a ?b] => destruct (derives a b); reflexivity
       end
     | ]);
    cbn [log received];
    let known := (first [reflexivity | eassumption]) in
    let later l c :=
      (right; split; [known|]; split; [known|];
       eexists; exists c, l;
       split; [rewrite <- ?app_assoc; reflexivity|];
       split; [reflexivity|]; split; [known | reflexivity]) in
    first
      [ left; eexists; split; [left; split; [known | reflexivity] | reflexivity]
      | left; eexists; split;
        [right; split; [known|]; split; [known | reflexivity] | reflexivity]
      | later (log w ++ [c1; c2])%list c3
      | later (log w ++ [c1; c2; c3])%list c5
      | later (log w ++ [c1; c2; c3])%list c4
      | later (log w ++ [c1; c2; c3; c4])%list c5 ].
Qed.

(** While the server holds the collection, the constructor, however often
    it runs and whatever it returns or raises, asks for no creation and
    leaves the collections as they are. *)
Theorem init_again (host : string) (port : Z)
  (username password db_name : string) (n : nat) (w : world) :
  holds w collection_name ->
  let w' := Runs.again n (init host port username password db_name) w in
  collections w' = collections w
  /\ creations (log w') = creations (log w).
Proof.
  cbv zeta. revert w. induction n as [|n IH]; intros w Hin; [split; reflexivity|].
  cbn [Runs.again].
  assert (Hone : collections (snd (init host port username password db_name w))
                 = collections w
                 /\ creations (log (snd (init host port username password
                                           db_name w)))
                    = creations (log w)).
  { rewrite init_run. cbv zeta.
    apply present_iff in Hin. rewrite Hin.
    repeat match goal with
           | |- context [fault ?l ?c] => destruct (fault l c)
           end;
      cbn [snd received log collections]; (split; [reflexivity|]);
      rewrite arango_creations_app; cbn; lia. }
  destruct Hone as [Hc Hn].
  destruct (IH (snd (init host port username password db_name w))) as [Hc' Hn'].
  { unfold holds. rewrite Hc. exact Hin. }
  split; congruence.
Qed.

(** A creation the server refuses with [CollectionCreateError] is reported
    as a failure to create or access the collection; any other failure after
    the connection as an unexpected error. *)
Theorem init_creation_refused (host : string) (port : Z)
  (username password db_name : string) (w : world) (cause : raised) :
  let url := host ++ ":" ++ decimal port in
  let c1 := NewClient url in
  let c2 := Db db_name username password in
  let c3 := HasCollection collection_name in
  let c4 := CreateCollection collection_name is_edge_collection in
  ~ holds w collection_name ->
  fault (log w) c1 = None ->
  fault (log w ++ [c1]) c2 = None ->
  fault (log w ++ [c1; c2]) c3 = None ->
  fault (log w ++ [c1; c2; c3]) c4 = Some cause ->
  let outcome := fst (init host port username password db_name w) in
  (cls cause = CollectionCreateError ->
   outcome = Raise (mkExn RuntimeError
                      ("Failed to create or access collection '"
                         ++ collection_name ++ "': " ++ text cause)))
  /\ (derives (cls cause) CollectionCreateError = false ->
      outcome = Raise (mkExn RuntimeError
                         ("Unexpected error accessing collection '"
                            ++ collection_name ++ "': " ++ text cause))).
Proof.
  intros url c1 c2 c3 c4 Hout H1 H2 H3 H4 outcome. subst outcome.
  rewrite init_run. cbv zeta. fold url c1 c2 c3 c4.
  rewrite H1, H2, H3.
  destruct (present w) eqn:Hp; [apply present_iff in Hp; contradiction|].
  rewrite H4. cbn [fst]. unfold access_error. split.
  - intros ->. reflexivity.
  - intros ->. reflexivity.
Qed.

(** *** The document methods *)

Variable this : instance.

Lemma document_run (c : call) (h : raised -> exn) (w : world) :
  try_driver (document_call fault answer c) [] h w
  = (match fault (log w) c with
     | Some e => Raise (h e)
     | None => Ok (answer (log w) c)
     end,
     received c w).
Proof.
  unfold try_driver, document_call, plain.
  destruct (fault (log w) c); reflexivity.
Qed.

Lemma cursor_run (c : call) (h : raised -> exn) (w : world) :
  try_driver (cursor_call fault rows c) [] h w
  = (match fault (log w) c with
     | Some e => Raise (h e)
     | None =>
         match rows (log w) c with
         | (_, Some e) => Raise (h e)
         | (items, None) => Ok items
         end
     end,
     received c w).
Proof.
  unfold try_driver, cursor_call.
  destruct (fault (log w) c); [reflexivity|].
  destruct (rows (log w) c) as [items [e|]]; reflexivity.
Qed.

(** The two methods that write, [insert_item] and [update_item], raise
    nothing but [ValueError]; the four that read or delete, [get_item],
    [delete_item], [find_all] and [query], nothing but [RuntimeError]. *)
Theorem document_error_classes (item updates : kwargs) (return_new : bool)
  (key query_str : string) (limit skip : Z) (bind_vars : option kwargs)
  (count : bool) (w : world) (e : exn) :
  (fst (insert_item fault answer this item return_new w) = Raise e ->
   exn_cls e = ValueError)
  /\ (fst (update_item fault answer this key updates w) = Raise e ->
      exn_cls e = ValueError)
  /\ (fst (get_item fault answer this key w) = Raise e ->
      exn_cls e = RuntimeError)
  /\ (fst (delete_item fault answer this key w) = Raise e ->
      exn_cls e = RuntimeError)
  /\ (fst (find_all fault rows this limit skip w) = Raise e ->
      exn_cls e = RuntimeError)
  /\ (fst (query fault rows query_str bind_vars count w) = Raise e ->
      exn_cls e = RuntimeError).
Proof.
  unfold insert_item, update_item, get_item, delete_item, find_all, query.
  rewrite !document_run, !cursor_run. cbn [fst].
  repeat split; intros H;
    repeat match type of H with
           | context [fault ?l ?c] => destruct (fault l c)
           | context [rows ?l ?c] => destruct (rows l c) as [? [?|]]
           end;
    try discriminate H; injection H as <-; reflexivity.
Qed.

(** Each document method makes exactly one call of the driver, on the
    collection opened by the constructor ([query] on the database), with the
    arguments it was given, and changes no collection; [update_item] selects
    by [_key]. *)
Theorem document_single_call (item updates : kwargs) (return_new : bool)
  (key query_str : string) (limit skip : Z) (bind_vars : option kwargs)
  (count : bool) (w : world) :
  snd (insert_item fault answer this item return_new w)
  = received (Insert (collection this) item return_new) w
  /\ snd (update_item fault answer this key updates w)
     = received (UpdateMatch (collection this) [("_key", PyStr key)] updates) w
  /\ snd (get_item fault answer this key w)
     = received (Get (collection this) key) w
  /\ snd (delete_item fault answer this key w)
     = received (Delete (collection this) key) w
  /\ snd (find_all fault rows this limit skip w)
     = received (All (collection this) limit skip) w
  /\ snd (query fault rows query_str bind_vars count w)
     = received (Execute query_str
                   (match bind_vars with Some d => d | None => [] end) count) w.
Proof.
  unfold insert_item, update_item, get_item, delete_item, find_all, query.
  rewrite !document_run, !cursor_run. cbn [snd].
  repeat split. destruct bind_vars as [[|b d]|]; reflexivity.
Qed.

(** When the driver answers, the four single-document methods give its
    answer back untouched: whatever the driver returns for a key that is not
    there, [None] included, is the result and not an error. *)
Theorem document_answer_passed_on (item updates : kwargs) (return_new : bool)
  (key : string) (w : world) :
  (fault (log w) (Insert (collection this) item return_new) = None ->
   fst (insert_item fault answer this item return_new w)
   = Ok (answer (log w) (Insert (collection this) item return_new)))
  /\ (fault (log w) (UpdateMatch (collection this) [("_key", PyStr key)]
                       updates) = None ->
      fst (update_item fault answer this key updates w)
      = Ok (answer (log w) (UpdateMatch (collection this)
                              [("_key", PyStr key)] updates)))
  /\ (fault (log w) (Get (collection this) key) = None ->
      fst (get_item fault answer this key w)
      = Ok (answer (log w) (Get (collection this) key)))
  /\ (fault (log w) (Delete (collection this) key) = None ->
      fst (delete_item fault answer this key w)
      = Ok (answer (log w) (Delete (collection this) key))).
Proof.
  unfold insert_item, update_item, get_item, delete_item.
  rewrite !document_run. cbn [fst].
  repeat split; intros ->; reflexivity.
Qed.

(** [find_all] and [query] return all the rows of the cursor or raise: a
    cursor that fails after some rows gives a [RuntimeError], never the rows
    read so far. *)
Theorem cursor_all_or_nothing (query_str : string) (limit skip : Z)
  (bind_vars : option kwargs) (count : bool) (w : world)
  (items : list pyval) (cause : raised) :
  let c1 := All (collection this) limit skip in
  let c2 := Execute query_str (or_empty bind_vars) count in
  (fault (log w) c1 = None ->
   (rows (log w) c1 = (items, None) ->
    fst (find_all fault rows this limit skip w) = Ok items)
   /\ (rows (log w) c1 = (items, Some cause) ->
       fst (find_all fault rows this limit skip w)
       = Raise (mkExn RuntimeError
                  ("Failed to retrieve documents from '" ++ collection_name
                     ++ "': " ++ text cause))))
  /\ (fault (log w) c2 = None ->
      (rows (log w) c2 = (items, None) ->
       fst (query fault rows query_str bind_vars count w) = Ok items)
      /\ (rows (log w) c2 = (items, Some cause) ->
          fst (query fault rows query_str bind_vars count w)
          = Raise (mkExn RuntimeError
                     ("Failed to execute query on '" ++ collection_name
                        ++ "': " ++ text cause)))).
Proof.
  intros c1 c2. unfold find_all, query. rewrite !cursor_run. cbn [fst].
  fold c1 c2.
  split; intros ->; split; intros ->; reflexivity.
Qed.

(** [query] sends the driver a dict of bind variables in every case: the
    empty one for [None], so that a call without bind variables and a call
    with the empty dict are the same run. *)
Theorem query_bind_vars (query_str : string) (count : bool) (w : world)
  (d : kwargs) :
  query fault rows query_str None count w
  = query fault rows query_str (Some []) count w
  /\ snd (query fault rows query_str None count w)
     = received (Execute query_str [] count) w
  /\ snd (query fault rows query_str (Some d) count w)
     = received (Execute query_str d count) w.
Proof.
  split; [reflexivity|]. unfold query. rewrite !cursor_run. cbn [snd].
  split; [reflexivity|]. destruct d; reflexivity.
Qed.

End Server.

(** *** The properties at work on a concrete server *)

Import MoreScenarios.

Lemma init_ensures_collection_witness :
  let made := {| db := "_system"; collection := "knows" |} in
  let w' := World [NewClient "http://localhost:8529";
                   Db "_system" "root" "";
                   HasCollection "knows";
                   CreateCollection "knows" true;
                   Collection "knows"]
                  [("knows", true)] in
  __init__ (self := knows) healthy "http://localhost" 8529 "root" "" "_system"
    fresh_server = (Ok made, w')
  /\ holds w' "knows"
  /\ collections w' = [("knows", true)]
  /\ creations (log w') = 1%nat.
Proof.
  intros made w'.
  assert (H : __init__ (self := knows) healthy "http://localhost" 8529 "root"
                "" "_system" fresh_server = (Ok made, w'))
    by (vm_compute; reflexivity).
  assert (Hout : ~ holds fresh_server "knows") by (intros []).
  split; [exact H|].
  destruct (@init_ensures_collection knows healthy "http://localhost" 8529%Z
              "root" "" "_system" fresh_server w' made H)
    as (_ & Hholds & _ & Hnew).
  split; [exact Hholds|]. exact (Hnew Hout).
Defined.

Lemma init_error_witness :
  let e := mkExn RuntimeError
             ("Failed to connect to ArangoDB at http://localhost:8529/_system: "
                ++ "connection refused") in
  let c1 := NewClient "http://localhost:8529" in
  let w' := World [c1] [] in
  __init__ (self := people) unreachable "http://localhost" 8529 "root" ""
    "_system" fresh_server = (Raise e, w')
  /\ exn_cls e = RuntimeError
  /\ exists cause,
       unreachable (log fresh_server) c1 = Some cause
       /\ e = mkExn RuntimeError
                ("Failed to connect to ArangoDB at http://localhost:8529/_system: "
                   ++ text cause).
Proof.
  intros e c1 w'.
  assert (H : __init__ (self := people) unreachable "http://localhost" 8529
                "root" "" "_system" fresh_server = (Raise e, w'))
    by (vm_compute; reflexivity).
  split; [exact H|].
  destruct (@init_error people unreachable "http://localhost" 8529%Z "root" ""
              "_system" fresh_server w' e H) as (Hc & Hcases).
  split; [exact Hc|].
  destruct Hcases as [(cause & [(Hf & _) | (Hn & _)] & He) | (Hn & _)].
  - exists cause. split; [exact Hf | exact He].
  - discriminate Hn.
  - discriminate Hn.
Defined.

Lemma init_again_witness :
  let w := World [] [("people", false)] in
  let w' := Runs.again 3 (__init__ (self := people) healthy "http://localhost"
                            8529 "root" "" "_system") w in
  holds w "people"
  /\ collections w' = collections w
  /\ creations (log w') = creations (log w).
Proof.
  intros w w'.
  assert (H : holds w "people") by (left; reflexivity).
  split; [exact H|].
  exact (@init_again people healthy "http://localhost" 8529%Z "root" ""
           "_system" 3 w H).
Defined.

Lemma init_creation_refused_witness :
  let c1 := NewClient "http://localhost:8529" in
  let c2 := Db "_system" "root" "" in
  let c3 := HasCollection "people" in
  let c4 := CreateCollection "people" false in
  let cause := Raised CollectionCreateError "forbidden" in
  ~ holds fresh_server "people"
  /\ creation_denied (log fresh_server) c1 = None
  /\ creation_denied (log fresh_server ++ [c1]) c2 = None
  /\ creation_denied (log fresh_server ++ [c1; c2]) c3 = None
  /\ creation_denied (log fresh_server ++ [c1; c2; c3]) c4 = Some cause
  /\ cls cause = CollectionCreateError
  /\ fst (__init__ (self := people) creation_denied "http://localhost" 8529
            "root" "" "_system" fresh_server)
     = Raise (mkExn RuntimeError
                "Failed to create or access collection 'people': forbidden").
Proof.
  intros c1 c2 c3 c4 cause.
  assert (Hout : ~ holds fresh_server "people") by (intros []).
  split; [exact Hout|]. repeat (split; [reflexivity|]).
  exact (proj1 (@init_creation_refused people creation_denied
                  "http://localhost" 8529%Z "root" "" "_system" fresh_server
                  cause Hout eq_refl eq_refl eq_refl eq_refl) eq_refl).
Defined.

Example insert_into_read_only :
  insert_item (self := people) read_only no_answer people_instance
    [("_key", PyStr "alice")] false fresh_server
  = (Raise (mkExn ValueError "Failed to insert item into 'people': read only"),
     World [Insert "people" [("_key", PyStr "alice")] false] []).
Proof. vm_compute. reflexivity. Qed.

Example find_all_broken_cursor :
  fst (find_all (self := people) healthy broken_cursor people_instance 100 0
         fresh_server)
  = Raise (mkExn RuntimeError
             "Failed to retrieve documents from 'people': cursor lost").
Proof. vm_compute. reflexivity. Qed.

End ArangoSpec.
